(** * Task store (Pinia store 'task'): a shallow embedding

    The store of [stores/taskStore] keeps four state fields ([tasks],
    [loading], [error], [filter]), three getters and six actions.  Five of
    the actions are [async] functions that talk to the backend through the
    axios instance of [services/api.js].

    Embedding choices.
    - Task objects are JavaScript objects decoded from JSON: finite maps
      from property names to JavaScript values.  Property order is not
      observed by the store, so it is not modelled.
    - Numbers are the integer-valued ones (ids are strings or integers);
      the store never does arithmetic on them, it only tests truthiness and
      strict equality.
    - An [async] action is a resumption: it runs up to its [await], hands
      the request and the current world to the event loop, and its
      continuation is run later on the world as it is at that moment.
    - [await this.updateTask(...)] inside [toggleTaskCompletion] is a
      direct call: the only suspension point is the PUT of [updateTask].
    - Responses have the shape the backend contract gives them: an array
      of objects for the GET, one object for the POST and the PUT.
    - [console.log] / [console.error] of the store append to the console
      of the world; the lines the interceptors of [services/api.js] write
      are not recorded. *)

From stdpp Require Import gmap strings list fin_maps.

Set Warnings "-register-all".
Open Scope string_scope.
Open Scope list_scope.

(** ** JavaScript values *)

(** Primitive values.  The [id] arguments of the actions are primitives
    (documented as [@param {string} id]). *)
Inductive prim :=
  | PUndefined
  | PNull
  | PBool (b : bool)
  | PNum (n : Z)
  | PStr (s : string).

Global Instance prim_eq_dec : EqDecision prim.
Proof. solve_decision. Defined.

Inductive value :=
  | VPrim (p : prim)
  | VObj (o : gmap string value)
  | VArr (l : list value).

Coercion VPrim : prim >-> value.

(** A JavaScript object used as a record: own properties by name. *)
Abbreviation obj := (gmap string value).

Definition undefined : value := VPrim PUndefined.

(** [o.k]: reading a property that is absent yields [undefined]. *)
Definition get (o : obj) (k : string) : value :=
  match o !! k with
  | Some v => v
  | None => undefined
  end.

(** ToBoolean. *)
Definition truthy (v : value) : bool :=
  match v with
  | VPrim PUndefined => false
  | VPrim PNull => false
  | VPrim (PBool b) => b
  | VPrim (PNum n) => negb (n =? 0)%Z
  | VPrim (PStr s) => negb (String.eqb s "")
  | VObj _ => true
  | VArr _ => true
  end.

(** [a || b] *)
Definition js_or (a b : value) : value := if truthy a then a else b.

(** [!a] *)
Definition js_not (a : value) : value := VPrim (PBool (negb (truthy a))).

(** [v === p] for a primitive [p]: same type and same value; an object or
    an array is never strictly equal to a primitive. *)
Definition strict_eq (v : value) (p : prim) : bool :=
  match v with
  | VPrim q => bool_decide (q = p)
  | VObj _ => false
  | VArr _ => false
  end.

(** ** The store state and the world around it *)

(** [state: () => ({ tasks: [], loading: false, error: null, filter: 'all' })].
    [error] is [null] or one of the fixed messages; [filter] is whatever
    value [setFilter] was given. *)
Record state := State {
  tasks : list obj;
  loading : bool;
  error : option string;
  filter : value
}.

Definition initial_state : state :=
  {| tasks := []; loading := false; error := None; filter := VPrim (PStr "all") |}.

(** The lines the store writes to the console, one constructor per call
    site, carrying the values interpolated or passed along. *)
Inductive console_line :=
  | LogLoaded (n : nat)          (* console.log(`Loaded ${this.tasks.length} tasks from database`) *)
  | ErrFetching (e : value)      (* console.error('Error fetching tasks:', error) *)
  | LogCreated (title : value)   (* console.log('Task created:', response.data.title) *)
  | ErrCreating (e : value)      (* console.error('Error creating task:', error) *)
  | LogUpdated (title : value)   (* console.log('Task updated:', response.data.title) *)
  | ErrUpdating (e : value)      (* console.error('Error updating task:', error) *)
  | ErrNotFound (id : prim)      (* console.error('Task not found:', id) *)
  | ErrToggling (e : value)      (* console.error('Error toggling task:', error) *)
  | LogDeleted                   (* console.log('Task deleted') *)
  | ErrDeleting (e : value)      (* console.error('Error deleting task:', error) *)
  | LogFilter (f : value).       (* console.log(`Filter changed to: ${filter}`) *)

Record world := World {
  store : state;
  console : list console_line
}.

(** ** The HTTP client, seen from the store *)

Inductive url :=
  | TasksUrl                (* '/tasks/' *)
  | TaskUrl (id : prim).    (* `/tasks/${id}` *)

(** Requests, indexed by the shape of [response.data] the backend
    contract gives for them.  The body of a DELETE response is never read. *)
Inductive request : Type -> Type :=
  | ApiGet (u : url) : request (list obj)
  | ApiPost (u : url) (body : obj) : request obj
  | ApiPut (u : url) (body : obj) : request obj
  | ApiDelete (u : url) : request unit.

(** How the promise of a request settles: fulfilled with [response.data],
    or rejected with the error of the transport (any non-2xx status, or no
    response at all). *)
Inductive settled (T : Type) :=
  | Fulfilled (data : T)
  | Rejected (e : value).
Arguments Fulfilled {T} data.
Arguments Rejected {T} e.

(** ** Async actions as resumptions *)

Inductive completion (A : Type) :=
  | Normal (a : A)
  | Throw (e : value).
Arguments Normal {A} a.
Arguments Throw {A} e.

(** Either the action is over, or it is suspended at an [await]: the
    request is out, the world is as the action left it, and the
    continuation takes the settlement and the world as it is by then. *)
Inductive step (A : Type) :=
  | Fin (c : completion A) (w : world)
  | Susp {T : Type} (req : request T) (w : world)
         (k : settled T -> world -> step A).
Arguments Fin {A} c w.
Arguments Susp {A T} req w k.

Definition M (A : Type) : Type := world -> step A.

Fixpoint bind_step {A B} (st : step A) (f : A -> M B) : step B :=
  match st with
  | Fin (Normal a) w => f a w
  | Fin (Throw e) w => Fin (Throw e) w
  | Susp req w k => Susp req w (fun r w' => bind_step (k r w') f)
  end.

Global Instance M_ret : MRet M := fun A a w => Fin (Normal a) w.
Global Instance M_bind : MBind M := fun A B f m w => bind_step (m w) f.

Definition throw {A} (e : value) : M A := fun w => Fin (Throw e) w.

(** [await api.<method>(...)] *)
Definition await {T} (req : request T) : M T := fun w =>
  Susp req w (fun r w' =>
    match r with
    | Fulfilled data => Fin (Normal data) w'
    | Rejected e => Fin (Throw e) w'
    end).

Fixpoint catch_step {A} (st : step A) (handler : value -> M A) : step A :=
  match st with
  | Fin (Normal a) w => Fin (Normal a) w
  | Fin (Throw e) w => handler e w
  | Susp req w k => Susp req w (fun r w' => catch_step (k r w') handler)
  end.

(** The [finally] block runs after any completion of what precedes it and,
    completing normally itself, leaves that completion in place. *)
Fixpoint finally_step {A} (st : step A) (fin : M unit) : step A :=
  match st with
  | Fin c w => bind_step (fin w) (fun _ w' => Fin c w')
  | Susp req w k => Susp req w (fun r w' => finally_step (k r w') fin)
  end.

(** [try { body } catch (error) { handler } finally { fin }] *)
Definition try_catch_finally {A} (body : M A) (handler : value -> M A)
    (fin : M unit) : M A :=
  fun w => finally_step (catch_step (body w) handler) fin.

(** [try { body } catch (error) { handler }] *)
Definition try_catch {A} (body : M A) (handler : value -> M A) : M A :=
  fun w => catch_step (body w) handler.

(** Reads and writes of [this.<field>], and the console. *)
Definition read {A} (f : state -> A) : M A := fun w => Fin (Normal (f (store w))) w.

Definition modify (f : state -> state) : M unit := fun w =>
  Fin (Normal tt) {| store := f (store w); console := console w |}.

Definition with_tasks (ts : list obj) (s : state) : state :=
  {| tasks := ts; loading := loading s; error := error s; filter := filter s |}.
Definition with_loading (b : bool) (s : state) : state :=
  {| tasks := tasks s; loading := b; error := error s; filter := filter s |}.
Definition with_error (e : option string) (s : state) : state :=
  {| tasks := tasks s; loading := loading s; error := e; filter := filter s |}.
Definition with_filter (f : value) (s : state) : state :=
  {| tasks := tasks s; loading := loading s; error := error s; filter := f |}.

Definition set_tasks (ts : list obj) : M unit := modify (with_tasks ts).
Definition set_loading (b : bool) : M unit := modify (with_loading b).
Definition set_error (e : option string) : M unit := modify (with_error e).
Definition set_filter (f : value) : M unit := modify (with_filter f).

Definition console_write (l : console_line) : M unit := fun w =>
  Fin (Normal tt) {| store := store w; console := console w ++ [l] |}.

(** ** Array helpers *)

(** [Array.prototype.findIndex]: the index of the first element that
    satisfies [p], or [-1]. *)
Fixpoint findIndex_from {A} (p : A -> bool) (l : list A) (i : Z) : Z :=
  match l with
  | [] => (-1)%Z
  | x :: l' => if p x then i else findIndex_from p l' (i + 1)%Z
  end.

Definition findIndex {A} (p : A -> bool) (l : list A) : Z := findIndex_from p l 0.

(** ** The store *)

Module TaskStore.

(** [{ ...task, id: task.id || task._id }]: a copy of [task] whose [id]
    property is set to [task.id || task._id].  The store writes this
    expression out at each place a response enters [tasks]. *)
Definition normalize_id (task : obj) : obj :=
  <["id" := js_or (get task "id") (get task "_id")]> task.

(** [task => task._id === id || task.id === id] *)
Definition matches (id : prim) (task : obj) : bool :=
  strict_eq (get task "_id") id || strict_eq (get task "id") id.

(** *** Getters *)

Definition filteredTasks (state : state) : list obj :=
  if strict_eq (filter state) (PStr "active") then
    List.filter (fun task => truthy (js_not (get task "completed"))) (tasks state)
  else if strict_eq (filter state) (PStr "completed") then
    List.filter (fun task => truthy (get task "completed")) (tasks state)
  else
    tasks state.

Definition activeTasksCount (state : state) : nat :=
  length (List.filter (fun task => truthy (js_not (get task "completed"))) (tasks state)).

Definition completedTasksCount (state : state) : nat :=
  length (List.filter (fun task => truthy (get task "completed")) (tasks state)).

(** *** Actions *)

Definition fetch_failed : string :=
  "Failed to load tasks. Please check if the backend is running.".
Definition create_failed : string := "Failed to create task. Please try again.".
Definition update_failed : string := "Failed to update task. Please try again.".
Definition delete_failed : string := "Failed to delete task. Please try again.".

Definition fetchTasks : M unit :=
  set_loading true ;;
  set_error None ;;
  try_catch_finally
    (response ← await (ApiGet TasksUrl) ;
     set_tasks (map normalize_id response) ;;
     ts ← read tasks ;
     console_write (LogLoaded (length ts)))
    (fun error =>
     set_error (Some fetch_failed) ;;
     console_write (ErrFetching error))
    (set_loading false).

Definition createTask (taskData : obj) : M unit :=
  set_loading true ;;
  set_error None ;;
  try_catch_finally
    (response ← await (ApiPost TasksUrl taskData) ;
     let newTask := normalize_id response in
     ts ← read tasks ;
     set_tasks (ts ++ [newTask]) ;;
     console_write (LogCreated (get response "title")))
    (fun error =>
     set_error (Some create_failed) ;;
     console_write (ErrCreating error) ;;
     throw error)
    (set_loading false).

Definition updateTask (id : prim) (taskData : obj) : M unit :=
  set_loading true ;;
  set_error None ;;
  try_catch_finally
    (let title := get taskData "title" in
     let description := get taskData "description" in
     let completed := get taskData "completed" in
     let payload : obj :=
       <["title" := title]> (<["description" := description]>
         (<["completed" := completed]> ∅)) in
     response ← await (ApiPut (TaskUrl id) payload) ;
     ts ← read tasks ;
     let index := findIndex (fun task => strict_eq (get task "_id") id
                                         || strict_eq (get task "id") id) ts in
     if bool_decide (index ≠ (-1)%Z) then
       set_tasks (<[Z.to_nat index := normalize_id response]> ts) ;;
       console_write (LogUpdated (get response "title"))
     else
       mret tt)
    (fun error =>
     set_error (Some update_failed) ;;
     console_write (ErrUpdating error) ;;
     throw error)
    (set_loading false).

Definition toggleTaskCompletion (id : prim) : M unit :=
  ts ← read tasks ;
  match List.find (fun t => strict_eq (get t "_id") id
                            || strict_eq (get t "id") id) ts with
  | None =>
      console_write (ErrNotFound id)
  | Some task =>
      try_catch
        (updateTask id
           (<["title" := get task "title"]>
              (<["description" := get task "description"]>
                 (<["completed" := js_not (get task "completed")]> ∅))))
        (fun error => console_write (ErrToggling error))
  end.

Definition deleteTask (id : prim) : M unit :=
  set_loading true ;;
  set_error None ;;
  try_catch_finally
    (_ ← await (ApiDelete (TaskUrl id)) ;
     ts ← read tasks ;
     set_tasks (List.filter (fun task => negb (strict_eq (get task "_id") id)
                                         && negb (strict_eq (get task "id") id)) ts) ;;
     console_write LogDeleted)
    (fun error =>
     set_error (Some delete_failed) ;;
     console_write (ErrDeleting error) ;;
     throw error)
    (set_loading false).

Definition setFilter (filter : value) : M unit :=
  set_filter filter ;;
  console_write (LogFilter filter).

End TaskStore.

(** * Properties *)

Import TaskStore.

(** ** Vocabulary of the statements *)

(** The world right after [this.loading = true; this.error = null]. *)
Definition started (w : world) : world :=
  {| store := with_error None (with_loading true (store w));
     console := console w |}.

(** [always P st]: however the pending requests settle, and whatever the
    world has become when the action is resumed, the action completes and
    its completion satisfies [P]. *)
Fixpoint always {A} (P : completion A -> world -> Prop) (st : step A) : Prop :=
  match st with
  | Fin c w => P c w
  | Susp _ _ k => forall r w', always P (k r w')
  end.

(** [preserves I st]: [I] holds wherever the action hands the world back
    (at each [await] and at its end), provided it holds whenever the action
    is resumed. *)
Fixpoint preserves {A} (I : world -> Prop) (st : step A) : Prop :=
  match st with
  | Fin _ w => I w
  | Susp _ w k => I w /\ forall r w', I w' -> preserves I (k r w')
  end.

(** The action run without interruption against a backend [api]: every
    request is settled at once, on the world the action suspended with. *)
Fixpoint run_alone {A} (api : forall T, request T -> settled T) (st : step A)
    : completion A * world :=
  match st with
  | Fin c w => (c, w)
  | Susp req w k => run_alone api (k (api _ req) w)
  end.

(** [n] is the position of the first element of [l] that satisfies [p],
    and [x] is that element. *)
Definition first_match {A} (p : A -> bool) (l : list A) (n : nat) (x : A) : Prop :=
  l !! n = Some x /\ p x = true /\
  forall m y, (m < n)%nat -> l !! m = Some y -> p y = false.

Definition no_match {A} (p : A -> bool) (l : list A) : Prop :=
  forall x, x ∈ l -> p x = false.

(** [typeof v === 'boolean'] *)
Definition is_boolean (v : value) : bool :=
  match v with
  | VPrim (PBool _) => true
  | _ => false
  end.

(** [stored] is [response] id-normalized: its [id] property holds
    [response.id || response._id], and every other property is the one
    of [response], present or absent alike. *)
Definition id_normalized (response stored : obj) : Prop :=
  stored !! "id" = Some (js_or (get response "id") (get response "_id"))
  /\ forall key, key <> "id" -> stored !! key = response !! key.

(** The object has an own property named [id]. *)
Definition has_id (t : obj) : Prop := is_Some (t !! "id").

(** Every task of the store has an [id] property. *)
Definition tasks_have_id (w : world) : Prop := Forall has_id (tasks (store w)).

(** ** A session against a scripted backend *)

Module Scenario.

Definition milk : obj :=
  <["id" := VPrim (PStr "1")]>
    (<["title" := VPrim (PStr "Buy milk")]>
       (<["completed" := VPrim (PBool false)]> ∅)).

Definition spec_draft : obj := <["title" := VPrim (PStr "Write spec")]> ∅.

Definition spec_task (completed : bool) : obj :=
  <["id" := VPrim (PStr "2")]>
    (<["title" := VPrim (PStr "Write spec")]>
       (<["description" := VPrim (PStr "")]>
          (<["completed" := VPrim (PBool completed)]> ∅))).

(** The backend answers the GET with the one task, the POST with the
    created task, the PUT with the task completed, and confirms the
    DELETE. *)
Definition backend (T : Type) (req : request T) : settled T :=
  match req in request T return settled T with
  | ApiGet _ => Fulfilled [milk]
  | ApiPost _ _ => Fulfilled (spec_task false)
  | ApiPut _ _ => Fulfilled (spec_task true)
  | ApiDelete _ => Fulfilled tt
  end.

(** A backend that is down. *)
Definition offline (T : Type) (req : request T) : settled T :=
  Rejected (VPrim (PStr "Network Error")).

Definition w0 : world := {| store := initial_state; console := [] |}.
Definition w1 : world := snd (run_alone backend (fetchTasks w0)).
Definition w2 : world := snd (run_alone backend (createTask spec_draft w1)).
Definition w3 : world :=
  snd (run_alone backend (updateTask (PStr "2") (spec_task true) w2)).
Definition w4 : world := snd (run_alone backend (deleteTask (PStr "1") w3)).

End Scenario.

(** * The HTTP client ([services/api.js]) *)

Module Api.

(** [baseURL: import.meta.env.VITE_API_URL || 'http://localhost:3000/api'] *)
Definition baseURL (VITE_API_URL : value) : value :=
  js_or VITE_API_URL (VPrim (PStr "http://localhost:3000/api")).

(** The request configuration axios hands to the interceptor. *)
Record axios_config := Config {
  method : string;
  url : string;
  headers : gmap string string;
  data : option obj
}.

Record axios_response := Response {
  status : Z;
  response_data : value;
  config : axios_config
}.

(** An axios error: [error.response] when the server answered with a
    status outside 2xx, [error.request] when a request went out, and
    [error.message]. *)
Record axios_error := AxiosError {
  response : option axios_response;
  request : bool;
  message : string
}.

(** The lines the interceptors write to the console. *)
Inductive line :=
  | RequestLine (METHOD url : string)      (* console.log(`API Request: ${config.method.toUpperCase()} ${config.url}`) *)
  | ResponseLine (status : Z) (url : string) (* console.log(`API Response: ${response.status} ${response.config.url}`) *)
  | Unauthorized                           (* console.error('Unauthorized: Please log in') *)
  | NotFound                               (* console.error('Not Found: Resource does not exist') *)
  | ServerError                            (* console.error('Server Error: Please try again later') *)
  | ErrorStatus (status : Z) (data : value) (* console.error(`Error ${status}:`, error.response.data) *)
  | NoResponse                             (* console.error('No Response: Is the backend server running ...?') *)
  | OtherError (message : string).         (* console.error('Error:', error.message) *)

(** What an interceptor passes on: a value, or [Promise.reject(error)]. *)
Inductive passed (R : Type) :=
  | Resolve (r : R)
  | Reject (error : axios_error).
Arguments Resolve {R} r.
Arguments Reject {R} error.

(** [localStorage.getItem('token')] is [null] or a string. *)
Definition token_value (token : option string) : value :=
  match token with
  | Some t => VPrim (PStr t)
  | None => VPrim PNull
  end.

Section RequestInterceptor.

(** [String.prototype.toUpperCase] *)
Variable toUpperCase : string -> string.

(** The request interceptor: [token] is what [localStorage] holds. *)
Definition request_fulfilled (token : option string) (config : axios_config)
    : list line * axios_config :=
  let config :=
    match token with
    | Some t =>
        if truthy (token_value token) then
          {| method := method config;
             url := url config;
             headers := <["Authorization" := "Bearer " +:+ t]> (headers config);
             data := data config |}
        else config
    | None => config
    end in
  ([RequestLine (toUpperCase (method config)) (url config)], config).

End RequestInterceptor.

(** The response interceptor, success handler. *)
Definition response_fulfilled (response : axios_response)
    : list line * passed axios_response :=
  ([ResponseLine (status response) (url (config response))], Resolve response).

(** The response interceptor, error handler. *)
Definition response_rejected (error : axios_error)
    : list line * passed axios_response :=
  (match response error with
   | Some r =>
       let status := status r in
       if (status =? 401)%Z then [Unauthorized]
       else if (status =? 404)%Z then [NotFound]
       else if (status =? 500)%Z then [ServerError]
       else [ErrorStatus status (response_data r)]
   | None =>
       if request error then [NoResponse]
       else [OtherError (message error)]
   end,
   Reject error).

(** What the transport produced, seen through the response interceptor. *)
Definition intercept_response (settlement : passed axios_response)
    : list line * passed axios_response :=
  match settlement with
  | Resolve response => response_fulfilled response
  | Reject error => response_rejected error
  end.

End Api.

(** * The task row ([components/TaskItem.vue]) *)

Module TaskItem.

(** The validator of the [task] prop:
    [task.id !== undefined && task.title !== undefined]. *)
Definition validator (task : obj) : bool :=
  negb (strict_eq (get task "id") PUndefined)
  && negb (strict_eq (get task "title") PUndefined).

End TaskItem.

(** * The page ([views/TasksView.vue]) *)

Module TasksView.

(** What a handler does to the page besides calling the store: an
    [alert], or [this.editingTask = null]. *)
Inductive effect :=
  | Alert (msg : string)
  | ClearEditingTask.

(** [taskStore.error] as the template tests it. *)
Definition error_value (e : option string) : value :=
  match e with
  | Some msg => VPrim (PStr msg)
  | None => VPrim PNull
  end.

Definition emptyStateMessage (state : state) : string :=
  if strict_eq (filter state) (PStr "active") then
    "No active tasks. Great job! ðŸŽ‰"
  else if strict_eq (filter state) (PStr "completed") then
    "No completed tasks yet."
  else
    "No tasks yet. Add your first task above!".

(** The one block the [v-if] / [v-else-if] / [v-else] chain of the
    template renders below the filter buttons. *)
Inductive panel :=
  | Loading                          (* Loading tasks... *)
  | ErrorPanel (msg : option string) (* {{ taskStore.error }} *)
  | TaskList (rows : list obj)       (* a TaskItem for each task in taskStore.filteredTasks *)
  | EmptyState (msg : string).       (* {{ emptyStateMessage }} *)

Definition template (state : state) : panel :=
  if loading state then Loading
  else if truthy (error_value (error state)) then ErrorPanel (error state)
  else if (0 <? length (filteredTasks state))%nat then TaskList (filteredTasks state)
  else EmptyState (emptyStateMessage state).

(** [mounted() { this.taskStore.fetchTasks() }]: the promise is dropped. *)
Definition mounted : M unit := fetchTasks.

(** [editingTask] is [null] or the task being edited, of which the
    handler reads the [id], a primitive as for the actions. *)
Definition handleFormSubmit (editingTask : option prim) (formData : obj)
    : M (list effect) :=
  try_catch
    (match editingTask with
     | Some id =>
         updateTask id formData ;;
         mret [ClearEditingTask]
     | None =>
         createTask formData ;;
         mret []
     end)
    (fun error => mret [Alert "Failed to save task. Please try again."]).

Definition handleToggleTask (taskId : prim) : M (list effect) :=
  try_catch
    (toggleTaskCompletion taskId ;;
     mret [])
    (fun error => mret [Alert "Failed to update task. Please try again."]).

(** [confirmed] is the answer to
    [confirm('Are you sure you want to delete this task?')]. *)
Definition handleDeleteTask (confirmed : bool) (taskId : prim)
    : M (list effect) :=
  if negb confirmed then
    mret []
  else
    try_catch
      (deleteTask taskId ;;
       mret [])
      (fun error => mret [Alert "Failed to delete task. Please try again."]).

End TasksView.

(** * The form ([components/TaskForm.vue]) *)

Module TaskForm.

(** [{ title: '', description: '', completed: false }] *)
Definition resetForm : obj :=
  <["title" := VPrim (PStr "")]>
    (<["description" := VPrim (PStr "")]>
       (<["completed" := VPrim (PBool false)]> ∅)).

(** [isEditing() { return this.task !== null }] *)
Definition isEditing (task : option obj) : bool :=
  match task with
  | Some _ => true
  | None => false
  end.

(** The watcher of the [task] prop: the new [formData]. *)
Definition handler (newTask : option obj) : obj :=
  match newTask with
  | Some newTask =>
      <["title" := js_or (get newTask "title") (VPrim (PStr ""))]>
        (<["description" := js_or (get newTask "description") (VPrim (PStr ""))]>
           (<["completed" := js_or (get newTask "completed") (VPrim (PBool false))]> ∅))
  | None => resetForm
  end.

Inductive effect :=
  | Alert (msg : string)
  | Emit (event : string) (payload : option obj).

(** How a method of the form ends: with its effects and the new
    [formData], or with a TypeError. *)
Inductive outcome :=
  | Done (effects : list effect) (formData : obj)
  | TypeError.

Section Methods.

(** [String.prototype.trim] *)
Variable trim : string -> string.

(** [this.formData.title.trim()] is a TypeError unless the title is a
    string. *)
Definition handleSubmit (task : option obj) (formData : obj) : outcome :=
  match get formData "title" with
  | VPrim (PStr title) =>
      if negb (truthy (VPrim (PStr (trim title)))) then
        Done [Alert "Please enter a task title"] formData
      else
        let submitted := [Emit "submit" (Some formData)] in
        if negb (isEditing task) then Done submitted resetForm
        else Done submitted formData
  | _ => TypeError
  end.

Definition handleCancel (formData : obj) : outcome :=
  Done [Emit "cancel" None] resetForm.

End Methods.

End TaskForm.

(** * Proofs *)

(** ** Symbolic execution of an action *)

Ltac run_action :=
  cbv [mbind mret M_bind M_ret bind_step catch_step finally_step
       try_catch_finally try_catch throw
       set_tasks set_loading set_error set_filter modify read console_write];
  cbn [store console tasks loading error filter
       with_tasks with_loading with_error with_filter].

(** ** Values *)

Lemma strict_eq_true (v : value) (p : prim) :
  strict_eq v p = true <-> v = VPrim p.
Proof.
  destruct v as [q| |]; simpl.
  - rewrite bool_decide_eq_true. split; congruence.
  - split; discriminate.
  - split; discriminate.
Qed.

Lemma strict_eq_false (v : value) (p : prim) :
  strict_eq v p = false <-> v <> VPrim p.
Proof.
  rewrite <- strict_eq_true. destruct (strict_eq v p); split; congruence.
Qed.

Lemma js_or_falsy (a b : value) : truthy a = false -> js_or a b = b.
Proof. unfold js_or. by intros ->. Qed.

Lemma js_or_truthy (a b : value) : truthy a = true -> js_or a b = a.
Proof. unfold js_or. by intros ->. Qed.

Lemma truthy_js_not (v : value) : truthy (js_not v) = negb (truthy v).
Proof. reflexivity. Qed.

Lemma matches_false (id : prim) (t : obj) :
  matches id t = false <-> get t "_id" <> VPrim id /\ get t "id" <> VPrim id.
Proof.
  unfold matches. rewrite orb_false_iff, !strict_eq_false. tauto.
Qed.

Lemma normalize_id_normalized (task : obj) :
  id_normalized task (normalize_id task).
Proof.
  unfold normalize_id. split.
  - apply lookup_insert_eq.
  - intros key Hkey. by apply lookup_insert_ne.
Qed.

Lemma map_normalize_id_normalized (data : list obj) :
  Forall2 id_normalized data (map normalize_id data).
Proof.
  induction data as [|d data IH]; simpl; constructor; [|exact IH].
  apply normalize_id_normalized.
Qed.

Lemma strict_eq_refl (p : prim) : strict_eq (VPrim p) p = true.
Proof. simpl. by apply bool_decide_eq_true_2. Qed.

(** ** Arrays *)

Lemma findIndex_from_first_match {A} (p : A -> bool) l n x i :
  first_match p l n x -> findIndex_from p l i = (i + Z.of_nat n)%Z.
Proof.
  revert n i. induction l as [|y l IH]; intros n i (Hn & Hp & Hbefore).
  - by rewrite lookup_nil in Hn.
  - destruct n as [|n]; simpl in *.
    + injection Hn as ->. rewrite Hp. lia.
    + rewrite (Hbefore 0%nat y) by (done || lia).
      rewrite (IH n (i + 1)%Z); [lia|].
      split; [done|]. split; [done|].
      intros m z Hm Hz. apply (Hbefore (S m) z); [lia | done].
Qed.

Lemma findIndex_first_match {A} (p : A -> bool) l n x :
  first_match p l n x -> findIndex p l = Z.of_nat n.
Proof. intros H. unfold findIndex. by rewrite (findIndex_from_first_match p l n x). Qed.

Lemma findIndex_from_no_match {A} (p : A -> bool) l i :
  no_match p l -> findIndex_from p l i = (-1)%Z.
Proof.
  revert i. induction l as [|y l IH]; intros i H; simpl; [done|].
  rewrite (H y) by apply list_elem_of_here.
  apply IH. intros x Hx. apply H. by apply list_elem_of_further.
Qed.

Lemma findIndex_no_match {A} (p : A -> bool) l :
  no_match p l -> findIndex p l = (-1)%Z.
Proof. apply findIndex_from_no_match. Qed.

(** Every array either has a first match or none at all. *)
Lemma first_match_or_none {A} (p : A -> bool) (l : list A) :
  no_match p l \/ exists n x, first_match p l n x.
Proof.
  induction l as [|y l IH].
  - left. intros x Hx. by apply not_elem_of_nil in Hx.
  - destruct (p y) eqn:Hy.
    + right. exists 0%nat, y. repeat split; [done|]. intros m z Hm. lia.
    + destruct IH as [Hnone | (n & x & Hn & Hp & Hbefore)].
      * left. intros x Hx. apply elem_of_cons in Hx as [-> | Hx]; auto.
      * right. exists (S n), x. repeat split; [done | done |].
        intros [|m] z Hm Hz; simpl in Hz.
        -- by injection Hz as <-.
        -- apply (Hbefore m z); [lia | done].
Qed.

Lemma find_first_match {A} (p : A -> bool) l n x :
  first_match p l n x -> List.find p l = Some x.
Proof.
  revert n. induction l as [|y l IH]; intros n (Hn & Hp & Hbefore).
  - by rewrite lookup_nil in Hn.
  - destruct n as [|n]; simpl in *.
    + injection Hn as ->. by rewrite Hp.
    + rewrite (Hbefore 0%nat y) by (done || lia).
      apply (IH n). repeat split; [done | done |].
      intros m z Hm Hz. apply (Hbefore (S m) z); [lia | done].
Qed.

Lemma find_no_match {A} (p : A -> bool) l :
  no_match p l -> List.find p l = None.
Proof.
  induction l as [|y l IH]; intros H; simpl; [done|].
  rewrite (H y) by apply list_elem_of_here.
  apply IH. intros x Hx. apply H. by apply list_elem_of_further.
Qed.

Lemma elem_of_List_filter {A} (p : A -> bool) (l : list A) (x : A) :
  x ∈ List.filter p l <-> x ∈ l /\ p x = true.
Proof. rewrite !list_elem_of_In. apply filter_In. Qed.

Lemma sublist_List_filter {A} (p : A -> bool) (l : list A) :
  sublist (List.filter p l) l.
Proof.
  induction l as [|y l IH]; simpl; [constructor|].
  destruct (p y); by constructor.
Qed.

Lemma List_filter_ext_in {A} (p q : A -> bool) (l : list A) :
  (forall x, x ∈ l -> p x = q x) -> List.filter p l = List.filter q l.
Proof.
  intros H. apply filter_ext_in. intros x Hx. apply H. by apply list_elem_of_In.
Qed.

Lemma List_filter_negb_length {A} (p : A -> bool) (l : list A) :
  (length (List.filter (fun x => negb (p x)) l) + length (List.filter p l)
   = length l)%nat.
Proof.
  induction l as [|y l IH]; simpl; [done|].
  destruct (p y); simpl; lia.
Qed.

(** ** The actions *)

(** C1. [fetchTasks] first sets [loading] to true and [error] to null and
    issues the GET.  When the GET is fulfilled with a sequence of task
    objects, [tasks] becomes that sequence with each entry id-normalized
    (same length), [loading] is false and [error] is still null; when it is
    rejected, [error] is the fixed message, [tasks] is what it was,
    [loading] is false and the action completes normally (the failure is
    not thrown to the caller). *)
Theorem fetchTasks_contract (w : world) :
  exists k,
    fetchTasks w = Susp (ApiGet TasksUrl) (started w) k
    /\ loading (store (started w)) = true
    /\ error (store (started w)) = None
    /\ tasks (store (started w)) = tasks (store w)
    /\ (forall (data : list obj) (w' : world),
          exists w'', k (Fulfilled data) w' = Fin (Normal tt) w''
            /\ tasks (store w'') = map normalize_id data
            /\ length (tasks (store w'')) = length data
            /\ loading (store w'') = false
            /\ error (store w'') = error (store w')
            /\ filter (store w'') = filter (store w')
            /\ console w'' = console w' ++ [LogLoaded (length data)]
            /\ Forall2 id_normalized data (tasks (store w'')))
    /\ (forall (data : list obj),
          exists w'', k (Fulfilled data) (started w) = Fin (Normal tt) w''
            /\ length (tasks (store w'')) = length data
            /\ error (store w'') = None
            /\ loading (store w'') = false)
    /\ (forall (e : value) (w' : world),
          exists w'', k (Rejected e) w' = Fin (Normal tt) w''
            /\ error (store w'') =
                 Some "Failed to load tasks. Please check if the backend is running."
            /\ tasks (store w'') = tasks (store w')
            /\ loading (store w'') = false
            /\ filter (store w'') = filter (store w')
            /\ console w'' = console w' ++ [ErrFetching e]).
Proof.
  eexists. split; [reflexivity|].
  split; [done|]. split; [done|]. split; [done|].
  split; [|split].
  - intros data w'. eexists. split; [reflexivity|].
    run_action. rewrite length_map. split_and!; try done.
    apply map_normalize_id_normalized.
  - intros data. eexists. split; [reflexivity|].
    run_action. by rewrite length_map.
  - intros e w'. eexists. split; [reflexivity|]. done.
Qed.

(** C2. [createTask] leaves [tasks] alone until the POST settles.  When it
    is fulfilled, the returned object, id-normalized, is appended at the
    end and every element already there stays at its index; when it is
    rejected, [tasks] is unchanged, [error] is the fixed create-failure
    message and the rejection is re-thrown to the caller. *)
Theorem createTask_contract (taskData : obj) (w : world) :
  exists k,
    createTask taskData w = Susp (ApiPost TasksUrl taskData) (started w) k
    /\ tasks (store (started w)) = tasks (store w)
    /\ (forall (data : obj) (w' : world),
          exists w'', k (Fulfilled data) w' = Fin (Normal tt) w''
            /\ tasks (store w'') = tasks (store w') ++ [normalize_id data]
            /\ (forall i t, tasks (store w') !! i = Some t ->
                            tasks (store w'') !! i = Some t)
            /\ length (tasks (store w'')) = S (length (tasks (store w')))
            /\ loading (store w'') = false
            /\ error (store w'') = error (store w')
            /\ filter (store w'') = filter (store w')
            /\ exists newTask,
                 tasks (store w'') = tasks (store w') ++ [newTask]
                 /\ id_normalized data newTask)
    /\ (forall (e : value) (w' : world),
          exists w'', k (Rejected e) w' = Fin (Throw e) w''
            /\ tasks (store w'') = tasks (store w')
            /\ error (store w'') = Some "Failed to create task. Please try again."
            /\ loading (store w'') = false
            /\ filter (store w'') = filter (store w')).
Proof.
  eexists. split; [reflexivity|]. split; [done|]. split.
  - intros data w'. eexists. split; [reflexivity|].
    run_action. split_and!; try done.
    + intros i t Hi. by apply lookup_app_l_Some.
    + rewrite length_app. simpl. lia.
    + eexists. split; [reflexivity|]. apply normalize_id_normalized.
  - intros e w'. eexists. split; [reflexivity|]. done.
Qed.

(** C9. Each of the four network actions, however its request settles and
    whatever happened to the store while it was suspended, completes with
    [loading] equal to false. *)
Theorem loading_reset_on_completion (w : world) :
  always (fun _ w'' => loading (store w'') = false) (fetchTasks w)
  /\ (forall taskData,
        always (fun _ w'' => loading (store w'') = false) (createTask taskData w))
  /\ (forall id taskData,
        always (fun _ w'' => loading (store w'') = false) (updateTask id taskData w))
  /\ (forall id,
        always (fun _ w'' => loading (store w'') = false) (deleteTask id w)).
Proof.
  repeat split.
  - intros [data|e] w'; reflexivity.
  - intros taskData [data|e] w'; reflexivity.
  - intros id taskData [data|e] w'; [|reflexivity].
    unfold updateTask. run_action. unfold await. run_action.
    case_bool_decide; reflexivity.
  - intros id [data|e] w'; reflexivity.
Qed.

(** C3. [updateTask] sends a PUT whose body has the three properties
    [title], [description] and [completed], read from [taskData], and no
    other.  When the PUT is fulfilled and some task matches [id] on [_id]
    or on [id], the first such task is replaced in place by the
    id-normalized response, whose properties other than [id] are the
    server's; every other position is unchanged.  When no task matches,
    only [loading] is touched.  When the PUT is rejected, [error] is set
    and the rejection is re-thrown. *)
Theorem updateTask_contract (id : prim) (taskData : obj) (w : world) :
  exists (payload : obj) k,
    updateTask id taskData w = Susp (ApiPut (TaskUrl id) payload) (started w) k
    /\ dom payload = ({["title"; "description"; "completed"]} : gset string)
    /\ payload !! "title" = Some (get taskData "title")
    /\ payload !! "description" = Some (get taskData "description")
    /\ payload !! "completed" = Some (get taskData "completed")
    /\ (forall (data : obj) (w' : world) n t,
          first_match (matches id) (tasks (store w')) n t ->
          exists w'', k (Fulfilled data) w' = Fin (Normal tt) w''
            /\ tasks (store w'') = <[n := normalize_id data]> (tasks (store w'))
            /\ tasks (store w'') !! n = Some (normalize_id data)
            /\ (forall m, m <> n -> tasks (store w'') !! m = tasks (store w') !! m)
            /\ length (tasks (store w'')) = length (tasks (store w'))
            /\ (forall key, key <> "id" -> normalize_id data !! key = data !! key)
            /\ loading (store w'') = false
            /\ error (store w'') = error (store w')
            /\ filter (store w'') = filter (store w')
            /\ exists updated,
                 tasks (store w'') !! n = Some updated
                 /\ id_normalized data updated)
    /\ (forall (data : obj) (w' : world),
          no_match (matches id) (tasks (store w')) ->
          k (Fulfilled data) w' =
            Fin (Normal tt)
              {| store := with_loading false (store w'); console := console w' |}
          /\ tasks (with_loading false (store w')) = tasks (store w'))
    /\ (forall (e : value) (w' : world),
          exists w'', k (Rejected e) w' = Fin (Throw e) w''
            /\ tasks (store w'') = tasks (store w')
            /\ error (store w'') = Some "Failed to update task. Please try again."
            /\ loading (store w'') = false
            /\ filter (store w'') = filter (store w')).
Proof.
  eexists _, _. split; [reflexivity|].
  split; [|split; [|split; [|split; [|split; [|split]]]]].
  - rewrite !dom_insert_L, dom_empty_L. set_solver.
  - apply lookup_insert_eq.
  - by simplify_map_eq.
  - by simplify_map_eq.
  - intros data w' n t Hfirst. run_action.
    erewrite findIndex_first_match; [|exact Hfirst].
    rewrite bool_decide_eq_true_2 by lia. rewrite Nat2Z.id.
    eexists. split; [reflexivity|]. run_action.
    destruct Hfirst as (Hn & _ & _). apply lookup_lt_Some in Hn.
    split_and!; try done.
    + by apply list_lookup_insert_eq.
    + intros m Hm. by apply list_lookup_insert_ne.
    + apply length_insert.
    + intros key Hkey. unfold normalize_id. by rewrite lookup_insert_ne.
    + eexists. split; [by apply list_lookup_insert_eq|].
      apply normalize_id_normalized.
  - intros data w' Hnone. run_action.
    erewrite findIndex_no_match; [|exact Hnone].
    rewrite bool_decide_eq_false_2 by (intros H; by apply H).
    by destruct w' as [[? ? ? ?] ?].
  - intros e w'. eexists. split; [reflexivity|]. done.
Qed.

(** C5. [deleteTask] leaves [tasks] alone until the DELETE settles.  When
    it is fulfilled, exactly the tasks matching [id] on [_id] or on [id]
    are removed, all of them, and the others keep their relative order, so
    no remaining task has that id; when it is rejected, [tasks] is
    unchanged, [error] is the fixed delete-failure message and the
    rejection is re-thrown. *)
Theorem deleteTask_contract (id : prim) (w : world) :
  exists k,
    deleteTask id w = Susp (ApiDelete (TaskUrl id)) (started w) k
    /\ tasks (store (started w)) = tasks (store w)
    /\ (forall (u : unit) (w' : world),
          exists w'', k (Fulfilled u) w' = Fin (Normal tt) w''
            /\ tasks (store w'') =
                 List.filter (fun t => negb (matches id t)) (tasks (store w'))
            /\ (forall t, t ∈ tasks (store w'') <->
                          t ∈ tasks (store w') /\ matches id t = false)
            /\ (forall t, t ∈ tasks (store w'') ->
                          get t "id" <> VPrim id /\ get t "_id" <> VPrim id)
            /\ sublist (tasks (store w'')) (tasks (store w'))
            /\ loading (store w'') = false
            /\ error (store w'') = error (store w')
            /\ filter (store w'') = filter (store w'))
    /\ (forall (e : value) (w' : world),
          exists w'', k (Rejected e) w' = Fin (Throw e) w''
            /\ tasks (store w'') = tasks (store w')
            /\ error (store w'') = Some "Failed to delete task. Please try again."
            /\ loading (store w'') = false
            /\ filter (store w'') = filter (store w')).
Proof.
  eexists. split; [reflexivity|]. split; [done|]. split.
  - intros u w'. eexists. split; [reflexivity|]. run_action.
    assert (Hfilter : List.filter
              (fun task => negb (strict_eq (get task "_id") id)
                           && negb (strict_eq (get task "id") id))
              (tasks (store w'))
            = List.filter (fun t => negb (matches id t)) (tasks (store w'))).
    { apply filter_ext. intros t. unfold matches. by rewrite negb_orb. }
    rewrite Hfilter. split_and!; try done.
    + intros t. rewrite elem_of_List_filter, negb_true_iff. tauto.
    + intros t (_ & Ht%negb_true_iff)%elem_of_List_filter.
      apply matches_false in Ht. tauto.
    + apply sublist_List_filter.
  - intros e w'. eexists. split; [reflexivity|]. done.
Qed.

(** C4. [toggleTaskCompletion]: when no task matches [id] on [_id] or on
    [id], it writes one line to the console and returns, the store being
    what it was ([error] included).  When a task matches, it is
    [updateTask] run on that task's [title] and [description] and on its
    [completed] negated, inside a [try] whose handler only logs: a
    fulfilled PUT continues as in [updateTask], a rejected one leaves
    the state [updateTask] leaves and completes normally.  In no case
    does the action throw. *)
Theorem toggleTaskCompletion_contract (id : prim) (w : world) :
  (no_match (matches id) (tasks (store w)) ->
     toggleTaskCompletion id w =
       Fin (Normal tt)
         {| store := store w; console := console w ++ [ErrNotFound id] |})
  /\ (forall n task,
        first_match (matches id) (tasks (store w)) n task ->
        let patch : obj :=
          <["title" := get task "title"]>
            (<["description" := get task "description"]>
               (<["completed" :=
                    VPrim (PBool (negb (truthy (get task "completed"))))]> ∅)) in
        toggleTaskCompletion id w =
          try_catch (updateTask id patch)
                    (fun error => console_write (ErrToggling error)) w
        /\ exists (payload : obj) k ku,
             toggleTaskCompletion id w =
               Susp (ApiPut (TaskUrl id) payload) (started w) k
             /\ updateTask id patch w =
                  Susp (ApiPut (TaskUrl id) payload) (started w) ku
             /\ payload !! "title" = Some (get task "title")
             /\ payload !! "description" = Some (get task "description")
             /\ payload !! "completed" =
                  Some (VPrim (PBool (negb (truthy (get task "completed")))))
             /\ (forall data w', k (Fulfilled data) w' = ku (Fulfilled data) w')
             /\ (forall e w',
                   exists w'', ku (Rejected e) w' = Fin (Throw e) w''
                     /\ k (Rejected e) w' =
                          Fin (Normal tt)
                            {| store := store w'';
                               console := console w'' ++ [ErrToggling e] |}
                     /\ error (store w'') =
                          Some "Failed to update task. Please try again."
                     /\ tasks (store w'') = tasks (store w')
                     /\ loading (store w'') = false))
  /\ always (fun c _ => c = Normal tt) (toggleTaskCompletion id w).
Proof.
  split_and!.
  - intros Hnone. unfold toggleTaskCompletion. run_action.
    erewrite find_no_match; [|exact Hnone]. by destruct w.
  - intros n task Hfirst patch.
    assert (Hdelegate : toggleTaskCompletion id w =
              try_catch (updateTask id patch)
                        (fun error => console_write (ErrToggling error)) w).
    { unfold toggleTaskCompletion. run_action.
      erewrite find_first_match; [|exact Hfirst]. reflexivity. }
    split; [exact Hdelegate|].
    rewrite Hdelegate. eexists _, _, _.
    split; [reflexivity|]. split; [reflexivity|].
    unfold get. split_and!.
    + by simplify_map_eq.
    + by simplify_map_eq.
    + by simplify_map_eq.
    + intros data w'. run_action. by case_bool_decide.
    + intros e w'. eexists. split; [reflexivity|]. done.
  - unfold toggleTaskCompletion. run_action.
    destruct (List.find _ _) as [task|]; [|reflexivity].
    intros [data|e] w'; [|reflexivity].
    run_action. by case_bool_decide.
Qed.

(** ** The getters *)

(** C6. In every state the two counts add up to the length of [tasks]:
    [activeTasksCount] counts the tasks whose [completed] is falsy,
    [completedTasksCount] those whose [completed] is truthy; where
    [completed] is a boolean on every task, these are the tasks whose
    [completed] is [false], respectively [true]. *)
Theorem counts_partition (s : state) :
  (activeTasksCount s + completedTasksCount s = length (tasks s))%nat
  /\ activeTasksCount s =
       length (List.filter (fun t => negb (truthy (get t "completed"))) (tasks s))
  /\ completedTasksCount s =
       length (List.filter (fun t => truthy (get t "completed")) (tasks s))
  /\ (Forall (fun t => is_boolean (get t "completed") = true) (tasks s) ->
        activeTasksCount s =
          length (List.filter (fun t => strict_eq (get t "completed") (PBool false))
                              (tasks s))
        /\ completedTasksCount s =
             length (List.filter (fun t => strict_eq (get t "completed") (PBool true))
                                 (tasks s))).
Proof.
  unfold activeTasksCount, completedTasksCount. split_and!.
  - apply (List_filter_negb_length (fun t => truthy (get t "completed"))).
  - reflexivity.
  - reflexivity.
  - intros Hbool. split; f_equal; apply List_filter_ext_in.
    + intros t Ht. rewrite Forall_forall in Hbool.
      specialize (Hbool t Ht). by destruct (get t "completed") as [[| |[]| |]| |].
    + intros t Ht. rewrite Forall_forall in Hbool.
      specialize (Hbool t Ht). by destruct (get t "completed") as [[| |[]| |]| |].
Qed.

(** C7. [setFilter] stores its argument, whatever it is, into [filter] and
    changes no other field.  [filteredTasks] is, under ['active'], the
    tasks whose [completed] is falsy ([false], for a boolean), under
    ['completed'] those whose [completed] is truthy ([true], for a
    boolean), and under any other value all of [tasks]; it is always a
    subsequence of [tasks]. *)
Theorem setFilter_filteredTasks :
  (forall (f : value) (w : world),
     exists w', setFilter f w = Fin (Normal tt) w'
       /\ filter (store w') = f
       /\ tasks (store w') = tasks (store w)
       /\ loading (store w') = loading (store w)
       /\ error (store w') = error (store w)
       /\ console w' = console w ++ [LogFilter f])
  /\ (forall s, filter s = VPrim (PStr "active") ->
        filteredTasks s =
          List.filter (fun t => negb (truthy (get t "completed"))) (tasks s)
        /\ (forall t b, get t "completed" = VPrim (PBool b) ->
              (t ∈ filteredTasks s <-> t ∈ tasks s /\ b = false)))
  /\ (forall s, filter s = VPrim (PStr "completed") ->
        filteredTasks s =
          List.filter (fun t => truthy (get t "completed")) (tasks s)
        /\ (forall t b, get t "completed" = VPrim (PBool b) ->
              (t ∈ filteredTasks s <-> t ∈ tasks s /\ b = true)))
  /\ (forall s, filter s <> VPrim (PStr "active") ->
                filter s <> VPrim (PStr "completed") ->
        filteredTasks s = tasks s)
  /\ (forall s, sublist (filteredTasks s) (tasks s)).
Proof.
  split_and!.
  - intros f w. eexists. split; [reflexivity|]. done.
  - intros s Hf. unfold filteredTasks. rewrite Hf. simpl. split; [done|].
    intros t b Hb. rewrite elem_of_List_filter, Hb. simpl.
    rewrite negb_true_iff. done.
  - intros s Hf. unfold filteredTasks. rewrite Hf. simpl. split; [done|].
    intros t b Hb. rewrite elem_of_List_filter, Hb. done.
  - intros s Ha Hc. unfold filteredTasks.
    apply strict_eq_false in Ha, Hc. by rewrite Ha, Hc.
  - intros s. unfold filteredTasks.
    destruct (strict_eq _ _); [apply sublist_List_filter|].
    destruct (strict_eq _ _); [apply sublist_List_filter|done].
Qed.

(** ** Id normalization *)

(** C8, as amended.  Every object that [fetchTasks], [createTask] or
    [updateTask] puts into [tasks] has an [id] property, holding
    [id || _id] of the response object, and so has every task of the store
    from then on; the other properties of the response, [_id] among them,
    are stored as received, and the lookups of [updateTask],
    [toggleTaskCompletion] and [deleteTask] match a task on its [_id] as
    well as on its [id]: a task whose [_id] is the argument is the one
    [updateTask] replaces and [toggleTaskCompletion] sends the PUT for
    when it comes first, and [deleteTask] removes it wherever it is,
    whatever its [id]. *)
Theorem stored_tasks_have_id (w : world) (Hw : tasks_have_id w) :
  (forall task : obj,
     has_id (normalize_id task)
     /\ normalize_id task !! "id" = Some (js_or (get task "id") (get task "_id"))
     /\ (forall key, key <> "id" -> normalize_id task !! key = task !! key))
  /\ preserves tasks_have_id (fetchTasks w)
  /\ (forall taskData, preserves tasks_have_id (createTask taskData w))
  /\ (forall id taskData, preserves tasks_have_id (updateTask id taskData w))
  /\ (forall id, preserves tasks_have_id (toggleTaskCompletion id w))
  /\ (forall id, preserves tasks_have_id (deleteTask id w))
  /\ (forall f, preserves tasks_have_id (setFilter f w))
  /\ (forall (id : prim) (task : obj),
        get task "_id" = VPrim id -> matches id task = true)
  /\ (forall (data : list obj) (w' : world),
        exists k w'',
          fetchTasks w = Susp (ApiGet TasksUrl) (started w) k
          /\ k (Fulfilled data) w' = Fin (Normal tt) w''
          /\ Forall2 (fun response stored =>
                        id_normalized response stored
                        /\ stored !! "_id" = response !! "_id")
                     data (tasks (store w'')))
  /\ (forall (taskData data : obj) (w' : world),
        exists k w'' newTask,
          createTask taskData w = Susp (ApiPost TasksUrl taskData) (started w) k
          /\ k (Fulfilled data) w' = Fin (Normal tt) w''
          /\ tasks (store w'') = tasks (store w') ++ [newTask]
          /\ id_normalized data newTask
          /\ newTask !! "_id" = data !! "_id")
  /\ (forall (id : prim) (taskData data : obj) (w' : world) t rest,
        tasks (store w') = t :: rest ->
        get t "_id" = VPrim id ->
        exists (payload : obj) k w'' updated,
          updateTask id taskData w = Susp (ApiPut (TaskUrl id) payload) (started w) k
          /\ k (Fulfilled data) w' = Fin (Normal tt) w''
          /\ tasks (store w'') = updated :: rest
          /\ id_normalized data updated
          /\ updated !! "_id" = data !! "_id")
  /\ (forall (id : prim) t rest,
        tasks (store w) = t :: rest ->
        get t "_id" = VPrim id ->
        exists (payload : obj) k,
          toggleTaskCompletion id w
            = Susp (ApiPut (TaskUrl id) payload) (started w) k
          /\ payload !! "title" = Some (get t "title"))
  /\ (forall (id : prim) (u : unit) (w' : world),
        exists k w'',
          deleteTask id w = Susp (ApiDelete (TaskUrl id)) (started w) k
          /\ k (Fulfilled u) w' = Fin (Normal tt) w''
          /\ forall t, t ∈ tasks (store w') -> get t "_id" = VPrim id ->
                        t ∉ tasks (store w'')).
Proof.
  assert (Hnorm : forall task : obj, has_id (normalize_id task)).
  { intros task. unfold has_id, normalize_id. rewrite lookup_insert_eq. eauto. }
  assert (Hupdate : forall id taskData w0, tasks_have_id w0 ->
            preserves tasks_have_id (updateTask id taskData w0)).
  { intros id taskData w0 Hw0. split; [exact Hw0|].
    intros [data|e] w' Hw'; [|exact Hw'].
    run_action. case_bool_decide; [|exact Hw'].
    unfold tasks_have_id. simpl. apply Forall_insert; [exact Hw'|apply Hnorm]. }
  split_and!.
  - intros task. split; [apply Hnorm|]. unfold normalize_id. split.
    + apply lookup_insert_eq.
    + intros key Hkey. by apply lookup_insert_ne.
  - split; [exact Hw|]. intros [data|e] w' Hw'; [|exact Hw'].
    unfold tasks_have_id. simpl. apply Forall_forall.
    intros t Ht. apply list_elem_of_In, in_map_iff in Ht as (task & <- & _).
    apply Hnorm.
  - intros taskData. split; [exact Hw|]. intros [data|e] w' Hw'; [|exact Hw'].
    unfold tasks_have_id. simpl. apply Forall_app. split; [exact Hw'|].
    apply Forall_singleton, Hnorm.
  - intros id taskData. by apply Hupdate.
  - intros id. unfold toggleTaskCompletion. run_action.
    destruct (List.find _ _) as [task|]; [|exact Hw].
    split; [exact Hw|]. intros [data|e] w' Hw'; [|exact Hw'].
    run_action. case_bool_decide; [|exact Hw'].
    unfold tasks_have_id. simpl. apply Forall_insert; [exact Hw'|apply Hnorm].
  - intros id. split; [exact Hw|]. intros [[]|e] w' Hw'; [|exact Hw'].
    unfold tasks_have_id. simpl. apply Forall_forall.
    intros t Ht%list_elem_of_In%filter_In. destruct Ht as [Ht%list_elem_of_In _].
    revert t Ht. by apply Forall_forall.
  - intros f. exact Hw.
  - intros id task Hid. unfold matches. rewrite Hid. simpl.
    by rewrite bool_decide_eq_true_2.
  - intros data w'. eexists _, _. split; [reflexivity|]. split; [reflexivity|].
    run_action. eapply Forall2_impl; [apply map_normalize_id_normalized|].
    intros response stored [Hid Hrest]. split; [by split|]. by apply Hrest.
  - intros taskData data w'. eexists _, _, _.
    split; [reflexivity|]. split; [reflexivity|]. split; [reflexivity|].
    destruct (normalize_id_normalized data) as [Hid Hrest].
    split; [by split|]. by apply Hrest.
  - intros id taskData data w' t rest Htasks Hlegacy.
    eexists _, _, _, _. split; [reflexivity|].
    run_action. rewrite Htasks. unfold findIndex. simpl.
    rewrite Hlegacy, strict_eq_refl. simpl.
    split; [reflexivity|]. run_action. split; [reflexivity|].
    destruct (normalize_id_normalized data) as [Hid Hrest].
    split; [by split|]. by apply Hrest.
  - intros id t rest Htasks Hlegacy.
    unfold toggleTaskCompletion. run_action. rewrite Htasks. simpl.
    rewrite Hlegacy, strict_eq_refl. simpl.
    eexists _, _. split; [reflexivity|]. apply lookup_insert_eq.
  - intros id u w'. eexists _, _. split; [reflexivity|]. split; [reflexivity|].
    run_action. intros t _ Hlegacy (_ & Hkept)%elem_of_List_filter.
    by rewrite Hlegacy, strict_eq_refl in Hkept.
Qed.

(** C10, as amended.  The stored [id] is [task.id || task._id]: a truthy
    [id] is kept; a falsy or absent [id] (the integer 0, the empty string)
    is replaced by whatever [_id] holds, which is the value of [_id] when
    the response has that property, falsy or not, and [undefined] only
    when it has not. *)
Theorem normalize_id_by_truthiness (task : obj) :
  get (normalize_id task) "id" = js_or (get task "id") (get task "_id")
  /\ (truthy (get task "id") = true ->
        get (normalize_id task) "id" = get task "id")
  /\ (truthy (get task "id") = false ->
        get (normalize_id task) "id" = get task "_id"
        /\ (forall v, task !! "_id" = Some v -> get (normalize_id task) "id" = v)
        /\ (task !! "_id" = None -> get (normalize_id task) "id" = undefined)).
Proof.
  assert (Hid : get (normalize_id task) "id"
                = js_or (get task "id") (get task "_id")).
  { unfold get at 1. unfold normalize_id. by rewrite lookup_insert_eq. }
  split_and!.
  - exact Hid.
  - intros Ht. by rewrite Hid, js_or_truthy.
  - intros Hf. rewrite Hid, js_or_falsy by done. split_and!.
    + reflexivity.
    + intros v Hv. unfold get. by rewrite Hv.
    + intros Hnone. unfold get. by rewrite Hnone.
Qed.

(** ** Concrete runs *)

(** A response whose [id] is the integer 0 and whose [_id] is ['abc']:
    the falsy [id] is replaced by [_id]. *)
Lemma normalize_id_by_truthiness_witness :
  let task : obj :=
    <["id" := VPrim (PNum 0)]> (<["_id" := VPrim (PStr "abc")]> ∅) in
  truthy (get task "id") = false
  /\ get (normalize_id task) "id" = VPrim (PStr "abc").
Proof.
  intros task. split; [reflexivity|].
  exact (proj1 (proj2 (proj2 (normalize_id_by_truthiness task)) eq_refl)).
Defined.

(** C10, the claim as it stands fails: with [id] 0 and [_id] the empty
    string, both falsy, the task [fetchTasks] stores has the empty string
    as its [id], not [undefined]. *)
Lemma falsy_legacy_id_is_stored :
  let w0 := {| store := initial_state; console := [] |} in
  let response : obj :=
    <["id" := VPrim (PNum 0)]> (<["_id" := VPrim (PStr "")]> ∅) in
  truthy (get response "id") = false
  /\ truthy (get response "_id") = false
  /\ exists k w'' stored,
       fetchTasks w0 = Susp (ApiGet TasksUrl) (started w0) k
       /\ k (Fulfilled [response]) (started w0) = Fin (Normal tt) w''
       /\ tasks (store w'') = [stored]
       /\ get stored "id" = VPrim (PStr "")
       /\ get stored "id" <> undefined.
Proof.
  intros w0 response. split; [reflexivity|]. split; [reflexivity|].
  eexists _, _, _. split; [reflexivity|]. split; [reflexivity|].
  split; [reflexivity|]. split; [reflexivity|].
  intros H. vm_compute in H. discriminate H.
Qed.

(** C8, the claim as it stands fails: the task [fetchTasks] stores for
    the response [{ _id: 'a', title: 'x' }] still has its [_id]; and on a
    store holding the already normalized task [{ id: 'b', _id: 'a' }],
    [deleteTask('a')] removes it, matching on [_id] although its [id] is
    ['b']. *)
Lemma legacy_id_kept_and_used :
  let w0 := {| store := initial_state; console := [] |} in
  let response : obj :=
    <["_id" := VPrim (PStr "a")]> (<["title" := VPrim (PStr "x")]> ∅) in
  let kept : obj :=
    <["id" := VPrim (PStr "b")]> (<["_id" := VPrim (PStr "a")]> ∅) in
  let w1 := {| store := with_tasks [kept] initial_state; console := [] |} in
  (exists k w'' stored,
     fetchTasks w0 = Susp (ApiGet TasksUrl) (started w0) k
     /\ k (Fulfilled [response]) (started w0) = Fin (Normal tt) w''
     /\ tasks (store w'') = [stored]
     /\ stored !! "id" = Some (VPrim (PStr "a"))
     /\ stored !! "_id" = Some (VPrim (PStr "a")))
  /\ normalize_id kept = kept
  /\ strict_eq (get kept "id") (PStr "a") = false
  /\ (exists k w'',
        deleteTask (PStr "a") w1 = Susp (ApiDelete (TaskUrl (PStr "a"))) (started w1) k
        /\ k (Fulfilled tt) (started w1) = Fin (Normal tt) w''
        /\ tasks (store w'') = []).
Proof.
  intros w0 response kept w1. split_and!.
  - eexists _, _, _. split; [reflexivity|]. split; [reflexivity|].
    split; [reflexivity|]. split; reflexivity.
  - reflexivity.
  - reflexivity.
  - eexists _, _. split; [reflexivity|]. split; reflexivity.
Qed.

(** On a store whose single task has an [id], every action keeps the
    invariant. *)
Lemma stored_tasks_have_id_witness :
  let task : obj :=
    <["id" := VPrim (PStr "1")]> (<["title" := VPrim (PStr "Buy milk")]> ∅) in
  let w := {| store := with_tasks [task] initial_state; console := [] |} in
  tasks_have_id w /\ preserves tasks_have_id (deleteTask (PStr "1") w).
Proof.
  intros task w.
  assert (Hw : tasks_have_id w).
  { apply Forall_singleton. exists (VPrim (PStr "1")). reflexivity. }
  split; [exact Hw|].
  apply (stored_tasks_have_id w Hw).
Defined.

(** ** The session of the scripted backend *)

Example scenario_fetch :
  tasks (store Scenario.w1) = [Scenario.milk]
  /\ activeTasksCount (store Scenario.w1) = 1%nat
  /\ completedTasksCount (store Scenario.w1) = 0%nat
  /\ loading (store Scenario.w1) = false
  /\ error (store Scenario.w1) = None.
Proof. repeat split. Qed.

Example scenario_create :
  tasks (store Scenario.w2) = [Scenario.milk; Scenario.spec_task false].
Proof. reflexivity. Qed.

Example scenario_update :
  tasks (store Scenario.w3) = [Scenario.milk; Scenario.spec_task true]
  /\ completedTasksCount (store Scenario.w3)
     = S (completedTasksCount (store Scenario.w2)).
Proof. split; reflexivity. Qed.

Example scenario_delete :
  tasks (store Scenario.w4) = [Scenario.spec_task true]
  /\ activeTasksCount (store Scenario.w4) = 0%nat
  /\ activeTasksCount (store Scenario.w3) = 1%nat.
Proof. repeat split. Qed.

Example scenario_toggle :
  run_alone Scenario.backend (toggleTaskCompletion (PStr "2") Scenario.w2)
  = (Normal tt,
     {| store := with_tasks [Scenario.milk; Scenario.spec_task true]
                   (store Scenario.w2);
        console := console Scenario.w2
                   ++ [LogUpdated (VPrim (PStr "Write spec"))] |}).
Proof. reflexivity. Qed.

Example scenario_toggle_offline :
  run_alone Scenario.offline (toggleTaskCompletion (PStr "2") Scenario.w2)
  = (Normal tt,
     {| store := with_error (Some update_failed) (store Scenario.w2);
        console := console Scenario.w2
                   ++ [ErrUpdating (VPrim (PStr "Network Error"));
                       ErrToggling (VPrim (PStr "Network Error"))] |}).
Proof. reflexivity. Qed.

Example scenario_create_offline :
  fst (run_alone Scenario.offline (createTask Scenario.spec_draft Scenario.w1))
  = Throw (VPrim (PStr "Network Error"))
  /\ tasks (store (snd (run_alone Scenario.offline
                          (createTask Scenario.spec_draft Scenario.w1))))
     = [Scenario.milk].
Proof. split; reflexivity. Qed.

(** The session's [updateTask('2', ...)]: the second task is the first
    match and is the one replaced. *)
Lemma updateTask_contract_witness :
  first_match (matches (PStr "2")) (tasks (store Scenario.w2)) 1
              (Scenario.spec_task false)
  /\ exists (payload : obj) k w'',
       updateTask (PStr "2") (Scenario.spec_task true) Scenario.w2
         = Susp (ApiPut (TaskUrl (PStr "2")) payload) (started Scenario.w2) k
       /\ k (Fulfilled (Scenario.spec_task true)) (started Scenario.w2)
            = Fin (Normal tt) w''
       /\ tasks (store w'') !! 1%nat
            = Some (normalize_id (Scenario.spec_task true)).
Proof.
  assert (H : first_match (matches (PStr "2"))
                (tasks (store (started Scenario.w2))) 1
                (Scenario.spec_task false)).
  { split; [reflexivity|]. split; [reflexivity|].
    intros [|m] y Hm Hy; [|lia]. injection Hy as <-. reflexivity. }
  split; [exact H|].
  destruct (updateTask_contract (PStr "2") (Scenario.spec_task true) Scenario.w2)
    as (payload & k & Heq & _ & _ & _ & _ & Hmatch & _).
  destruct (Hmatch (Scenario.spec_task true) (started Scenario.w2) 1%nat _ H)
    as (w'' & Hk & _ & Hn & _).
  exists payload, k, w''. split; [exact Heq|]. split; [exact Hk|exact Hn].
Defined.

(** Toggling an id the store does not hold, and toggling the second task
    of the session. *)
Lemma toggleTaskCompletion_contract_witness :
  no_match (matches (PStr "7")) (tasks (store Scenario.w2))
  /\ toggleTaskCompletion (PStr "7") Scenario.w2
       = Fin (Normal tt)
           {| store := store Scenario.w2;
              console := console Scenario.w2 ++ [ErrNotFound (PStr "7")] |}
  /\ first_match (matches (PStr "2")) (tasks (store Scenario.w2)) 1
                 (Scenario.spec_task false)
  /\ exists (payload : obj) k,
       toggleTaskCompletion (PStr "2") Scenario.w2
         = Susp (ApiPut (TaskUrl (PStr "2")) payload) (started Scenario.w2) k
       /\ payload !! "completed" = Some (VPrim (PBool true)).
Proof.
  assert (Hnone : no_match (matches (PStr "7")) (tasks (store Scenario.w2))).
  { intros x Hx. apply elem_of_cons in Hx as [-> | Hx]; [reflexivity|].
    apply list_elem_of_singleton in Hx as ->. reflexivity. }
  assert (Hfirst : first_match (matches (PStr "2")) (tasks (store Scenario.w2)) 1
                     (Scenario.spec_task false)).
  { split; [reflexivity|]. split; [reflexivity|].
    intros [|m] y Hm Hy; [|lia]. injection Hy as <-. reflexivity. }
  split; [exact Hnone|].
  split; [exact (proj1 (toggleTaskCompletion_contract (PStr "7") Scenario.w2) Hnone)|].
  split; [exact Hfirst|].
  destruct (proj1 (proj2 (toggleTaskCompletion_contract (PStr "2") Scenario.w2))
              1%nat _ Hfirst)
    as (_ & payload & k & ku & Heq & _ & _ & _ & Hcompleted & _).
  exists payload, k. split; [exact Heq|exact Hcompleted].
Defined.

(** The session's store after the create: both tasks have a boolean
    [completed], both are active. *)
Lemma counts_partition_witness :
  Forall (fun t => is_boolean (get t "completed") = true)
         (tasks (store Scenario.w2))
  /\ activeTasksCount (store Scenario.w2)
     = length (List.filter
                 (fun t => strict_eq (get t "completed") (PBool false))
                 (tasks (store Scenario.w2))).
Proof.
  assert (H : Forall (fun t => is_boolean (get t "completed") = true)
                     (tasks (store Scenario.w2))).
  { repeat constructor. }
  split; [exact H|].
  exact (proj1 (proj2 (proj2 (proj2 (counts_partition (store Scenario.w2)))) H)).
Defined.

(** The session's store after the update, seen through each filter. *)
Lemma setFilter_filteredTasks_witness :
  filteredTasks (with_filter (VPrim (PStr "active")) (store Scenario.w3))
    = [Scenario.milk]
  /\ filteredTasks (with_filter (VPrim (PStr "completed")) (store Scenario.w3))
       = [Scenario.spec_task true]
  /\ filteredTasks (with_filter (VPrim (PStr "done")) (store Scenario.w3))
       = [Scenario.milk; Scenario.spec_task true].
Proof.
  destruct setFilter_filteredTasks as (_ & Hactive & Hcompleted & Hother & _).
  split; [|split].
  - exact (proj1 (Hactive
             (with_filter (VPrim (PStr "active")) (store Scenario.w3)) eq_refl)).
  - exact (proj1 (Hcompleted
             (with_filter (VPrim (PStr "completed")) (store Scenario.w3)) eq_refl)).
  - apply (Hother (with_filter (VPrim (PStr "done")) (store Scenario.w3)));
      discriminate.
Defined.

(** * Further properties of the store *)

Lemma get_insert_eq (o : obj) (k : string) (v : value) :
  get (<[k := v]> o) k = v.
Proof. unfold get. by rewrite lookup_insert_eq. Qed.

Lemma get_insert_ne (o : obj) (k k' : string) (v : value) :
  k <> k' -> get (<[k := v]> o) k' = get o k'.
Proof. intros H. unfold get. by rewrite lookup_insert_ne. Qed.

Lemma js_or_absorb (a b : value) : js_or (js_or a b) b = js_or a b.
Proof. unfold js_or. destruct (truthy a) eqn:Ha; [by rewrite Ha|]. by destruct (truthy b). Qed.

Lemma List_filter_no_match {A} (p : A -> bool) (l : list A) :
  no_match p l -> List.filter (fun x => negb (p x)) l = l.
Proof.
  induction l as [|y l IH]; intros H; simpl; [done|].
  rewrite (H y) by apply list_elem_of_here. simpl. f_equal.
  apply IH. intros x Hx. apply H. by apply list_elem_of_further.
Qed.

Lemma no_match_List_filter {A} (p : A -> bool) (l : list A) :
  no_match p (List.filter (fun x => negb (p x)) l).
Proof. intros x (_ & Hx)%elem_of_List_filter. by apply negb_true_iff. Qed.

Lemma List_filter_split {A} (p : A -> bool) (l : list A) :
  List.filter (fun x => negb (p x)) l ++ List.filter p l ≡ₚ l.
Proof.
  induction l as [|y l IH]; simpl; [done|].
  destruct (p y); simpl.
  - rewrite <- Permutation_middle. by constructor.
  - by constructor.
Qed.

Lemma delete_filter_matches (id : prim) (ts : list obj) :
  List.filter (fun task => negb (strict_eq (get task "_id") id)
                           && negb (strict_eq (get task "id") id)) ts
  = List.filter (fun t => negb (matches id t)) ts.
Proof. apply filter_ext. intros t. unfold matches. by rewrite negb_orb. Qed.

(** X1. Normalizing twice is normalizing once: an object that already
    went through [{ ...task, id: task.id || task._id }] comes out of it
    unchanged, so a stored task that the backend sends back is stored as
    it was. *)
Theorem normalize_id_idempotent (task : obj) :
  normalize_id (normalize_id task) = normalize_id task.
Proof.
  unfold normalize_id.
  set (v := js_or (get task "id") (get task "_id")).
  assert (Hid : get (<["id" := v]> task) "id" = v) by apply get_insert_eq.
  assert (Hlegacy : get (<["id" := v]> task) "_id" = get task "_id")
    by (by apply get_insert_ne).
  rewrite Hid, Hlegacy. unfold v. rewrite js_or_absorb.
  apply insert_insert_eq.
Qed.

(** X2. The list the page shows and the counts of its header agree: under
    ['active'] the view has [activeTasksCount] rows, under ['completed']
    it has [completedTasksCount] rows, under any other filter it has their
    sum; the counts themselves do not depend on the filter, and the two
    filtered views together are a rearrangement of [tasks]. *)
Theorem filteredTasks_counts (s : state) :
  length (filteredTasks (with_filter (VPrim (PStr "active")) s))
    = activeTasksCount s
  /\ length (filteredTasks (with_filter (VPrim (PStr "completed")) s))
       = completedTasksCount s
  /\ (forall f, f <> VPrim (PStr "active") -> f <> VPrim (PStr "completed") ->
        length (filteredTasks (with_filter f s))
          = (activeTasksCount s + completedTasksCount s)%nat)
  /\ (forall f, activeTasksCount (with_filter f s) = activeTasksCount s
                /\ completedTasksCount (with_filter f s) = completedTasksCount s)
  /\ filteredTasks (with_filter (VPrim (PStr "active")) s)
       ++ filteredTasks (with_filter (VPrim (PStr "completed")) s)
     ≡ₚ tasks s.
Proof.
  split_and!.
  - reflexivity.
  - reflexivity.
  - intros f Ha Hc. unfold filteredTasks. simpl.
    apply strict_eq_false in Ha, Hc. rewrite Ha, Hc.
    unfold activeTasksCount, completedTasksCount.
    symmetry. apply (List_filter_negb_length (fun t => truthy (get t "completed"))).
  - intros f. split; reflexivity.
  - apply (List_filter_split (fun t => truthy (get t "completed"))).
Qed.

(** X3. Once a DELETE of [id] has been fulfilled, [id] is gone for every
    lookup of the store: no task matches it, [toggleTaskCompletion(id)]
    issues no request and only reports the task as not found, and a
    second fulfilled [deleteTask(id)] leaves [tasks] as it is. *)
Theorem deleteTask_then_lookup (id : prim) (w : world) :
  exists k,
    deleteTask id w = Susp (ApiDelete (TaskUrl id)) (started w) k
    /\ forall (u : unit) (w' : world),
         exists w1, k (Fulfilled u) w' = Fin (Normal tt) w1
           /\ no_match (matches id) (tasks (store w1))
           /\ List.find (matches id) (tasks (store w1)) = None
           /\ toggleTaskCompletion id w1 =
                Fin (Normal tt)
                  {| store := store w1;
                     console := console w1 ++ [ErrNotFound id] |}
           /\ exists k2 w2,
                deleteTask id w1 = Susp (ApiDelete (TaskUrl id)) (started w1) k2
                /\ k2 (Fulfilled u) (started w1) = Fin (Normal tt) w2
                /\ tasks (store w2) = tasks (store w1).
Proof.
  eexists. split; [reflexivity|]. intros u w'.
  eexists. split; [reflexivity|]. run_action.
  rewrite delete_filter_matches.
  assert (Hnone : no_match (matches id)
            (List.filter (fun t => negb (matches id t)) (tasks (store w'))))
    by apply no_match_List_filter.
  split_and!.
  - exact Hnone.
  - by apply find_no_match.
  - unfold toggleTaskCompletion. run_action.
    erewrite find_no_match; [|exact Hnone]. reflexivity.
  - eexists _, _. split; [reflexivity|]. split; [reflexivity|].
    run_action. rewrite delete_filter_matches.
    by apply List_filter_no_match.
Qed.

(** X4. Create, then delete: when the created task answers to [id] (on
    [_id] or on [id]) and no task of the store did before, the created
    task is the first and only match, at the last index, and a fulfilled
    [deleteTask(id)] brings [tasks] back to what it was before the
    create. *)
Theorem createTask_then_deleteTask (taskData created : obj) (id : prim)
    (w w' : world)
    (Hid : matches id (normalize_id created) = true)
    (Hfresh : no_match (matches id) (tasks (store w'))) :
  exists k w1,
    createTask taskData w = Susp (ApiPost TasksUrl taskData) (started w) k
    /\ k (Fulfilled created) w' = Fin (Normal tt) w1
    /\ first_match (matches id) (tasks (store w1))
                   (length (tasks (store w'))) (normalize_id created)
    /\ exists k2 w2,
         deleteTask id w1 = Susp (ApiDelete (TaskUrl id)) (started w1) k2
         /\ k2 (Fulfilled tt) (started w1) = Fin (Normal tt) w2
         /\ tasks (store w2) = tasks (store w').
Proof.
  eexists _, _. split; [reflexivity|]. split; [reflexivity|]. run_action.
  split.
  - split_and!.
    + by rewrite lookup_app_r, Nat.sub_diag.
    + exact Hid.
    + intros m y Hm Hy. rewrite lookup_app_l in Hy by done.
      apply Hfresh. by eapply list_elem_of_lookup_2.
  - eexists _, _. split; [reflexivity|]. split; [reflexivity|].
    unfold started. run_action. rewrite delete_filter_matches, List.filter_app. simpl.
    rewrite Hid. simpl. rewrite app_nil_r.
    by apply List_filter_no_match.
Qed.

(** X5. A [fetchTasks] and a [createTask] in flight together are applied
    in the order their requests settle.  When the GET settles first, its
    completion already sets [loading] to false although the POST is still
    out, and the created task is appended to the fetched list; when the
    POST settles first, [loading] is reset as early, and the later GET
    replaces [tasks] by its own answer, in which the created task is kept
    only if the backend listed it. *)
Theorem fetchTasks_createTask_overlap (taskData created : obj)
    (data : list obj) (w : world) :
  exists kf kc,
    fetchTasks w = Susp (ApiGet TasksUrl) (started w) kf
    /\ createTask taskData (started w)
         = Susp (ApiPost TasksUrl taskData) (started (started w)) kc
    /\ loading (store (started (started w))) = true
    /\ (exists w1 w2,
          kf (Fulfilled data) (started (started w)) = Fin (Normal tt) w1
          /\ loading (store w1) = false
          /\ kc (Fulfilled created) w1 = Fin (Normal tt) w2
          /\ tasks (store w2) = map normalize_id data ++ [normalize_id created])
    /\ (exists w1 w2,
          kc (Fulfilled created) (started (started w)) = Fin (Normal tt) w1
          /\ loading (store w1) = false
          /\ tasks (store w1) = tasks (store w) ++ [normalize_id created]
          /\ kf (Fulfilled data) w1 = Fin (Normal tt) w2
          /\ tasks (store w2) = map normalize_id data).
Proof.
  eexists _, _. split; [reflexivity|]. split; [reflexivity|].
  split; [reflexivity|]. split.
  - eexists _, _. split; [reflexivity|]. split; [reflexivity|].
    split; reflexivity.
  - eexists _, _. split; [reflexivity|]. split; [reflexivity|].
    split; [reflexivity|]. split; reflexivity.
Qed.

(** * The HTTP client *)

(** X6. The request interceptor sets the [Authorization] header to
    ['Bearer ' + token] exactly when [localStorage] holds a non-empty
    token, replacing a header of that name if there is one; it leaves
    every other header, the method, the url and the body as they are, and
    with no token, or an empty one, the configuration goes out
    unchanged. *)
Theorem request_interceptor_authorization (toUpperCase : string -> string)
    (token : option string) (config : Api.axios_config) :
  let config' := snd (Api.request_fulfilled toUpperCase token config) in
  Api.method config' = Api.method config
  /\ Api.url config' = Api.url config
  /\ Api.data config' = Api.data config
  /\ (forall h, h <> "Authorization" ->
        Api.headers config' !! h = Api.headers config !! h)
  /\ (forall t, token = Some t -> t <> "" ->
        Api.headers config' !! "Authorization" = Some ("Bearer " +:+ t))
  /\ (token = None \/ token = Some "" -> config' = config)
  /\ fst (Api.request_fulfilled toUpperCase token config)
       = [Api.RequestLine (toUpperCase (Api.method config)) (Api.url config)].
Proof.
  unfold Api.request_fulfilled.
  destruct token as [t|]; simpl.
  - destruct (String.eqb t "") eqn:Ht; simpl.
    + apply String.eqb_eq in Ht as ->. split_and!; try done.
      intros t [=<-] Ht. by destruct Ht.
    + apply String.eqb_neq in Ht. split_and!; try done.
      * intros h Hh. by apply lookup_insert_ne.
      * intros t' [=<-] _. apply lookup_insert_eq.
      * intros [H|[=H]]; [done|]. by subst.
  - by split_and!.
Qed.

(** X7. The response interceptor never changes what the store gets: a
    response is passed on as it is, and an error is rejected again as the
    very error received, after exactly one console line.  The line is
    chosen by the status when the server answered (401, 404, 500, any
    other), whatever [error.request] and [error.message] are, and
    otherwise by whether a request went out. *)
Theorem response_interceptor_transparent :
  (forall settlement,
     snd (Api.intercept_response settlement) = settlement
     /\ length (fst (Api.intercept_response settlement)) = 1%nat)
  /\ (forall r request message,
        fst (Api.response_rejected
               {| Api.response := Some r; Api.request := request;
                  Api.message := message |})
        = if bool_decide (Api.status r = 401%Z) then [Api.Unauthorized]
          else if bool_decide (Api.status r = 404%Z) then [Api.NotFound]
          else if bool_decide (Api.status r = 500%Z) then [Api.ServerError]
          else [Api.ErrorStatus (Api.status r) (Api.response_data r)])
  /\ (forall message,
        fst (Api.response_rejected
               {| Api.response := None; Api.request := true;
                  Api.message := message |})
        = [Api.NoResponse])
  /\ (forall message,
        fst (Api.response_rejected
               {| Api.response := None; Api.request := false;
                  Api.message := message |})
        = [Api.OtherError message]).
Proof.
  split_and!.
  - intros [response|error]; [done|]. split; [done|].
    unfold Api.intercept_response, Api.response_rejected. simpl.
    destruct (Api.response error) as [r|].
    + by repeat destruct (_ =? _)%Z.
    + by destruct (Api.request error).
  - intros r request message. unfold Api.response_rejected. simpl.
    destruct (Z.eqb_spec (Api.status r) 401) as [H1|H1];
      [by rewrite bool_decide_eq_true_2|rewrite bool_decide_eq_false_2 by done].
    destruct (Z.eqb_spec (Api.status r) 404) as [H2|H2];
      [by rewrite bool_decide_eq_true_2|rewrite bool_decide_eq_false_2 by done].
    destruct (Z.eqb_spec (Api.status r) 500) as [H3|H3];
      [by rewrite bool_decide_eq_true_2|by rewrite bool_decide_eq_false_2].
  - reflexivity.
  - reflexivity.
Qed.

(** * The task row *)

(** X8. What the validator of [TaskItem] asks of a stored task: a task
    normalized by the store passes exactly when the response had a truthy
    [id], or any [_id] at all, and a [title].  In particular a response
    that only carries the legacy [_id] fails the validator as received and
    passes once normalized. *)
Theorem validator_of_normalized_task (task : obj) :
  (TaskItem.validator (normalize_id task) = true <->
     (truthy (get task "id") = true \/ get task "_id" <> undefined)
     /\ get task "title" <> undefined)
  /\ (task !! "id" = None -> TaskItem.validator task = false)
  /\ (task !! "id" = None -> get task "_id" <> undefined ->
      get task "title" <> undefined ->
      TaskItem.validator (normalize_id task) = true).
Proof.
  assert (Hnorm : TaskItem.validator (normalize_id task) = true <->
     (truthy (get task "id") = true \/ get task "_id" <> undefined)
     /\ get task "title" <> undefined).
  { unfold TaskItem.validator, normalize_id.
    set (v := js_or (get task "id") (get task "_id")).
    assert (Hid : get (<["id" := v]> task) "id" = v) by apply get_insert_eq.
    assert (Htitle : get (<["id" := v]> task) "title" = get task "title")
      by (by apply get_insert_ne).
    rewrite Hid, Htitle, andb_true_iff, !negb_true_iff, !strict_eq_false.
    unfold v, js_or, undefined.
    destruct (truthy (get task "id")) eqn:Ht.
    - split; [intros [_ ?]; by auto|]. intros [_ ?]. split; [|done].
      intros Hu. by rewrite Hu in Ht.
    - split; [intros [? ?]; by auto|]. intros [[?|?] ?]; done. }
  split_and!.
  - exact Hnorm.
  - intros Hid. unfold TaskItem.validator, get. by rewrite Hid.
  - intros _ Hlegacy Htitle. apply Hnorm. auto.
Qed.

(** * The page *)

(** X9. [handleToggleTask] can never show its alert: however the PUT
    settles and whatever the store holds when the handler is resumed, it
    completes normally and without any effect on the page, because
    [toggleTaskCompletion] has already caught the failure.  A failed
    toggle is visible through [taskStore.error] only. *)
Theorem handleToggleTask_never_alerts (taskId : prim) (w : world) :
  always (fun c _ => c = Normal []) (TasksView.handleToggleTask taskId w)
  /\ (forall n task,
        first_match (matches taskId) (tasks (store w)) n task ->
        exists (payload : obj) k,
          TasksView.handleToggleTask taskId w
            = Susp (ApiPut (TaskUrl taskId) payload) (started w) k
          /\ forall e w',
               exists w'', k (Rejected e) w' = Fin (Normal []) w''
                 /\ error (store w'') = Some update_failed
                 /\ tasks (store w'') = tasks (store w')).
Proof.
  split.
  - unfold TasksView.handleToggleTask, toggleTaskCompletion. run_action.
    destruct (List.find _ _) as [task|]; [|reflexivity].
    intros [data|e] w'; [|reflexivity].
    run_action. by case_bool_decide.
  - intros n task Hfirst.
    unfold TasksView.handleToggleTask, toggleTaskCompletion. run_action.
    erewrite find_first_match; [|exact Hfirst].
    eexists _, _. split; [reflexivity|].
    intros e w'. eexists. split; [reflexivity|]. done.
Qed.

(** X10. [handleDeleteTask]: when the user declines the confirmation,
    nothing happens, no request is issued and the store is untouched.
    When the user confirms, the DELETE goes out; fulfilled, the matching
    tasks are removed and nothing is shown; rejected, the handler alerts
    once, [tasks] is kept and [taskStore.error] is set.  The handler never
    throws. *)
Theorem handleDeleteTask_contract (taskId : prim) (w : world) :
  TasksView.handleDeleteTask false taskId w = Fin (Normal []) w
  /\ (exists k,
        TasksView.handleDeleteTask true taskId w
          = Susp (ApiDelete (TaskUrl taskId)) (started w) k
        /\ (forall u w',
              exists w'', k (Fulfilled u) w' = Fin (Normal []) w''
                /\ tasks (store w'')
                   = List.filter (fun t => negb (matches taskId t))
                                 (tasks (store w')))
        /\ (forall e w',
              exists w'',
                k (Rejected e) w'
                  = Fin (Normal [TasksView.Alert
                                   "Failed to delete task. Please try again."])
                        w''
                /\ tasks (store w'') = tasks (store w')
                /\ error (store w'') = Some delete_failed))
  /\ (forall confirmed,
        always (fun c _ => exists effects, c = Normal effects)
               (TasksView.handleDeleteTask confirmed taskId w)).
Proof.
  split_and!.
  - reflexivity.
  - eexists. split; [reflexivity|]. split.
    + intros u w'. eexists. split; [reflexivity|].
      run_action. apply delete_filter_matches.
    + intros e w'. eexists. split; [reflexivity|]. done.
  - intros [|]; simpl.
    + intros [u|e] w'; simpl; eauto.
    + eauto.
Qed.

(** X11. [handleFormSubmit]: with no task being edited it creates, with
    one it updates that task's id.  Only a fulfilled update clears
    [editingTask]; a rejected create or update alerts once and leaves
    [editingTask] alone, so the form stays in edit mode.  The handler
    never throws. *)
Theorem handleFormSubmit_contract (formData : obj) (w : world) :
  (exists k,
     TasksView.handleFormSubmit None formData w
       = Susp (ApiPost TasksUrl formData) (started w) k
     /\ (forall data w',
           exists w'', k (Fulfilled data) w' = Fin (Normal []) w''
             /\ tasks (store w'') = tasks (store w') ++ [normalize_id data])
     /\ (forall e w',
           exists w'',
             k (Rejected e) w'
               = Fin (Normal [TasksView.Alert
                                "Failed to save task. Please try again."])
                     w''
             /\ tasks (store w'') = tasks (store w')
             /\ error (store w'') = Some create_failed))
  /\ (forall id,
        exists (payload : obj) k,
          TasksView.handleFormSubmit (Some id) formData w
            = Susp (ApiPut (TaskUrl id) payload) (started w) k
          /\ (forall data w',
                exists w'',
                  k (Fulfilled data) w'
                    = Fin (Normal [TasksView.ClearEditingTask]) w'')
          /\ (forall e w',
                exists w'',
                  k (Rejected e) w'
                    = Fin (Normal [TasksView.Alert
                                     "Failed to save task. Please try again."])
                          w''
                  /\ tasks (store w'') = tasks (store w')
                  /\ error (store w'') = Some update_failed))
  /\ (forall editingTask,
        always (fun c _ => exists effects, c = Normal effects)
               (TasksView.handleFormSubmit editingTask formData w)).
Proof.
  split_and!.
  - eexists. split; [reflexivity|]. split.
    + intros data w'. eexists. split; reflexivity.
    + intros e w'. eexists. split; [reflexivity|]. done.
  - intros id. eexists _, _. split; [reflexivity|]. split.
    + intros data w'. run_action. case_bool_decide; eauto.
    + intros e w'. eexists. split; [reflexivity|]. done.
  - intros [id|].
    + intros [data|e] w'; [|simpl; eauto].
      run_action. case_bool_decide; simpl; eauto.
    + intros [data|e] w'; simpl; eauto.
Qed.

(** X12. What the page shows around a network action.  At the moment a
    network action suspends at its request, the page shows the loading
    block, not the task list, whatever it showed before.  The loading
    block lasts only until the first action in flight completes: however
    its request settles and whatever the store holds by then (other
    requests may still be out), the page no longer shows it.  When the
    request is rejected, the page shows the error block with the action's
    message, although [tasks] is still there, and changing the filter
    does not bring the list back. *)
Theorem template_around_actions (w : world) :
  TasksView.template (store (started w)) = TasksView.Loading
  /\ always (fun _ w'' => TasksView.template (store w'') <> TasksView.Loading)
            (fetchTasks w)
  /\ (forall taskData,
        always (fun _ w'' => TasksView.template (store w'') <> TasksView.Loading)
               (createTask taskData w))
  /\ (forall id taskData,
        always (fun _ w'' => TasksView.template (store w'') <> TasksView.Loading)
               (updateTask id taskData w))
  /\ (forall id,
        always (fun _ w'' => TasksView.template (store w'') <> TasksView.Loading)
               (deleteTask id w))
  /\ (forall e w',
        (exists k w'',
           fetchTasks w = Susp (ApiGet TasksUrl) (started w) k
           /\ k (Rejected e) w' = Fin (Normal tt) w''
           /\ TasksView.template (store w'')
              = TasksView.ErrorPanel (Some fetch_failed))
        /\ (forall taskData, exists k w'',
              createTask taskData w = Susp (ApiPost TasksUrl taskData) (started w) k
              /\ k (Rejected e) w' = Fin (Throw e) w''
              /\ TasksView.template (store w'')
                 = TasksView.ErrorPanel (Some create_failed))
        /\ (forall id taskData, exists (payload : obj) k w'',
              updateTask id taskData w = Susp (ApiPut (TaskUrl id) payload) (started w) k
              /\ k (Rejected e) w' = Fin (Throw e) w''
              /\ TasksView.template (store w'')
                 = TasksView.ErrorPanel (Some update_failed))
        /\ (forall id, exists k w'',
              deleteTask id w = Susp (ApiDelete (TaskUrl id)) (started w) k
              /\ k (Rejected e) w' = Fin (Throw e) w''
              /\ TasksView.template (store w'')
                 = TasksView.ErrorPanel (Some delete_failed)))
  /\ (forall f msg,
        loading (store w) = false -> error (store w) = Some msg -> msg <> "" ->
        exists w', setFilter f w = Fin (Normal tt) w'
          /\ TasksView.template (store w') = TasksView.ErrorPanel (Some msg)).
Proof.
  assert (Hidle : forall s, loading s = false ->
                    TasksView.template s <> TasksView.Loading).
  { intros s Hs. unfold TasksView.template. rewrite Hs.
    destruct (truthy _); [discriminate|].
    destruct (_ <? _)%nat; discriminate. }
  split_and!.
  - reflexivity.
  - intros [data|e] w'; by apply Hidle.
  - intros taskData [data|e] w'; by apply Hidle.
  - intros id taskData [data|e] w'; [|by apply Hidle].
    run_action. case_bool_decide; by apply Hidle.
  - intros id [u|e] w'; by apply Hidle.
  - intros e w'. split_and!.
    + eexists _, _. split; [reflexivity|]. split; reflexivity.
    + intros taskData. eexists _, _. split; [reflexivity|]. split; reflexivity.
    + intros id taskData. eexists _, _, _. split; [reflexivity|]. split; reflexivity.
    + intros id. eexists _, _. split; [reflexivity|]. split; reflexivity.
  - intros f msg Hl He Hmsg. eexists. split; [reflexivity|].
    unfold TasksView.template. simpl. rewrite Hl, He. simpl.
    apply String.eqb_neq in Hmsg. by rewrite Hmsg.
Qed.

(** * The form *)

(** X13. Edit and save.  When the form is populated from a task whose
    [title] is a non-blank string and is submitted as it is, the form
    emits a copy of its data and keeps it, and the page sends a PUT for
    the task's id whose body carries the task's own [title], its
    [description] or [''] when that is falsy or missing, and its
    [completed] or [false]. *)
Theorem edit_and_save (trim : string -> string) (task : obj) (id : prim)
    (title : string) (w : world)
    (Htitle : get task "title" = VPrim (PStr title))
    (Hne : title <> "")
    (Htrim : trim title <> "") :
  let formData := TaskForm.handler (Some task) in
  TaskForm.handleSubmit trim (Some task) formData
    = TaskForm.Done [TaskForm.Emit "submit" (Some formData)] formData
  /\ exists (payload : obj) k,
       TasksView.handleFormSubmit (Some id) formData w
         = Susp (ApiPut (TaskUrl id) payload) (started w) k
       /\ payload !! "title" = Some (VPrim (PStr title))
       /\ payload !! "description"
            = Some (js_or (get task "description") (VPrim (PStr "")))
       /\ payload !! "completed"
            = Some (js_or (get task "completed") (VPrim (PBool false)))
       /\ (truthy (get task "description") = true ->
             payload !! "description" = Some (get task "description"))
       /\ (truthy (get task "completed") = true ->
             payload !! "completed" = Some (get task "completed")).
Proof.
  intros formData.
  assert (Hor : js_or (get task "title") (VPrim (PStr "")) = VPrim (PStr title)).
  { rewrite Htitle. apply js_or_truthy. simpl.
    apply String.eqb_neq in Hne. by rewrite Hne. }
  assert (Hform : get formData "title" = VPrim (PStr title)).
  { unfold formData, TaskForm.handler.
    etrans; [apply get_insert_eq | exact Hor]. }
  split.
  - unfold TaskForm.handleSubmit. rewrite Hform. simpl.
    apply String.eqb_neq in Htrim. by rewrite Htrim.
  - eexists _, _. split; [reflexivity|].
    assert (Hd : get formData "description"
                 = js_or (get task "description") (VPrim (PStr ""))).
    { unfold formData, TaskForm.handler, get. by simplify_map_eq. }
    assert (Hc : get formData "completed"
                 = js_or (get task "completed") (VPrim (PBool false))).
    { unfold formData, TaskForm.handler, get. by simplify_map_eq. }
    split_and!.
    + rewrite Hform. apply lookup_insert_eq.
    + rewrite Hd. by simplify_map_eq.
    + rewrite Hc. by simplify_map_eq.
    + intros Ht. rewrite Hd, (js_or_truthy _ _ Ht). by simplify_map_eq.
    + intros Ht. rewrite Hc, (js_or_truthy _ _ Ht). by simplify_map_eq.
Qed.

(** X14. Add a task.  Submitting the blank form with a non-blank title
    typed in emits the data, with [description] [''] and [completed]
    [false], and resets the form at once; the page sends the POST with
    exactly that data.  The reset does not wait for the backend: when the
    POST is rejected the page alerts, and the form has been blank since
    the submit. *)
Theorem add_task (trim : string -> string) (title : string) (w : world)
    (Htrim : trim title <> "") :
  let formData : obj := <["title" := VPrim (PStr title)]> TaskForm.resetForm in
  TaskForm.handleSubmit trim None formData
    = TaskForm.Done [TaskForm.Emit "submit" (Some formData)] TaskForm.resetForm
  /\ get formData "description" = VPrim (PStr "")
  /\ get formData "completed" = VPrim (PBool false)
  /\ exists k,
       TasksView.handleFormSubmit None formData w
         = Susp (ApiPost TasksUrl formData) (started w) k
       /\ forall e w',
            exists w'',
              k (Rejected e) w'
                = Fin (Normal [TasksView.Alert
                                 "Failed to save task. Please try again."])
                      w''
              /\ tasks (store w'') = tasks (store w').
Proof.
  intros formData.
  assert (Hform : get formData "title" = VPrim (PStr title))
    by apply get_insert_eq.
  split_and!.
  - unfold TaskForm.handleSubmit. rewrite Hform. simpl.
    apply String.eqb_neq in Htrim. by rewrite Htrim.
  - unfold formData, TaskForm.resetForm, get. by simplify_map_eq.
  - unfold formData, TaskForm.resetForm, get. by simplify_map_eq.
  - eexists. split; [reflexivity|].
    intros e w'. eexists. split; [reflexivity|]. done.
Qed.

(** X15. What the form never submits.  A title that trims to the empty
    string only raises the alert and leaves the form as it is; a submit
    event is emitted only for a string title with a non-empty trim, and
    then carries a copy of the form data.  A title that is not a string
    makes the method throw a TypeError; a form populated by the watcher
    is in that case only when the task's [title] is truthy and not a
    string. *)
Theorem handleSubmit_guard (trim : string -> string) (task : option obj)
    (formData : obj) :
  (forall title, get formData "title" = VPrim (PStr title) -> trim title = "" ->
     TaskForm.handleSubmit trim task formData
       = TaskForm.Done [TaskForm.Alert "Please enter a task title"] formData)
  /\ (forall effects formData' event payload,
        TaskForm.handleSubmit trim task formData = TaskForm.Done effects formData' ->
        TaskForm.Emit event payload ∈ effects ->
        event = "submit" /\ payload = Some formData
        /\ exists title, get formData "title" = VPrim (PStr title)
                         /\ trim title <> "")
  /\ ((forall title, get formData "title" <> VPrim (PStr title)) ->
        TaskForm.handleSubmit trim task formData = TaskForm.TypeError)
  /\ (forall newTask,
        TaskForm.handleSubmit trim task (TaskForm.handler newTask)
          = TaskForm.TypeError
        <-> exists t, newTask = Some t
              /\ truthy (get t "title") = true
              /\ forall title, get t "title" <> VPrim (PStr title)).
Proof.
  split_and!.
  - intros title Htitle Htrim. unfold TaskForm.handleSubmit.
    by rewrite Htitle, Htrim.
  - intros effects formData' event payload Hdone Hin.
    unfold TaskForm.handleSubmit in Hdone.
    destruct (get formData "title") as [[| | | |title]| |] eqn:Htitle;
      try discriminate Hdone.
    simpl in Hdone. destruct (String.eqb (trim title) "") eqn:Htrim;
      simpl in Hdone.
    + injection Hdone as <- <-.
      apply list_elem_of_singleton in Hin. discriminate Hin.
    + apply String.eqb_neq in Htrim.
      assert (Heff : effects = [TaskForm.Emit "submit" (Some formData)])
        by (destruct (TaskForm.isEditing task); simpl in Hdone; congruence).
      rewrite Heff in Hin. apply list_elem_of_singleton in Hin.
      injection Hin as -> ->. eauto.
  - intros Hnot. unfold TaskForm.handleSubmit.
    destruct (get formData "title") as [[| | | |title]| |] eqn:Htitle;
      try reflexivity.
    by destruct (Hnot title).
  - intros newTask.
    assert (Hsubmit : forall v,
              get (TaskForm.handler newTask) "title" = v ->
              (TaskForm.handleSubmit trim task (TaskForm.handler newTask)
                 = TaskForm.TypeError
               <-> forall title, v <> VPrim (PStr title))).
    { intros v Hv. unfold TaskForm.handleSubmit. rewrite Hv.
      destruct v as [[| | | |title]| |]; try (split; [intros _ ?|]; done).
      split.
      - simpl. destruct (negb _); [discriminate|].
        destruct (negb _); discriminate.
      - intros H. by destruct (H title). }
    destruct newTask as [t|].
    + assert (Hv : get (TaskForm.handler (Some t)) "title"
                   = js_or (get t "title") (VPrim (PStr "")))
        by apply get_insert_eq.
      rewrite (Hsubmit _ Hv). unfold js_or.
      destruct (truthy (get t "title")) eqn:Ht.
      * split; [intros H; exists t; by auto|].
        intros (t' & [= <-] & _ & H). exact H.
      * split; [intros H; by destruct (H "")|].
        intros (t' & [= <-] & Ht' & _). congruence.
    + assert (Hv : get (TaskForm.handler None) "title" = VPrim (PStr ""))
        by apply get_insert_eq.
      rewrite (Hsubmit _ Hv).
      split; [intros H; by destruct (H "")|].
      intros (t' & Hsome & _). discriminate Hsome.
Qed.

(** ** Concrete runs of the further properties *)

(** The session's create of task ['2'] on a store holding task ['1'],
    followed by its delete. *)
Lemma createTask_then_deleteTask_witness :
  matches (PStr "2") (normalize_id (Scenario.spec_task false)) = true
  /\ no_match (matches (PStr "2")) (tasks (store (started Scenario.w1)))
  /\ exists k w1,
       createTask Scenario.spec_draft Scenario.w1
         = Susp (ApiPost TasksUrl Scenario.spec_draft) (started Scenario.w1) k
       /\ k (Fulfilled (Scenario.spec_task false)) (started Scenario.w1)
            = Fin (Normal tt) w1
       /\ first_match (matches (PStr "2")) (tasks (store w1)) 1
                      (normalize_id (Scenario.spec_task false))
       /\ exists k2 w2,
            deleteTask (PStr "2") w1
              = Susp (ApiDelete (TaskUrl (PStr "2"))) (started w1) k2
            /\ k2 (Fulfilled tt) (started w1) = Fin (Normal tt) w2
            /\ tasks (store w2) = [Scenario.milk].
Proof.
  assert (Hid : matches (PStr "2") (normalize_id (Scenario.spec_task false))
                = true) by reflexivity.
  assert (Hfresh : no_match (matches (PStr "2"))
                     (tasks (store (started Scenario.w1)))).
  { intros x Hx. apply list_elem_of_singleton in Hx as ->. reflexivity. }
  split; [exact Hid|]. split; [exact Hfresh|].
  exact (createTask_then_deleteTask Scenario.spec_draft
           (Scenario.spec_task false) (PStr "2") Scenario.w1
           (started Scenario.w1) Hid Hfresh).
Defined.

(** Editing the session's task ['1'] and saving it unchanged. *)
Lemma edit_and_save_witness :
  get Scenario.milk "title" = VPrim (PStr "Buy milk")
  /\ "Buy milk" <> ""
  /\ TaskForm.handleSubmit (fun s => s) (Some Scenario.milk)
       (TaskForm.handler (Some Scenario.milk))
     = TaskForm.Done
         [TaskForm.Emit "submit" (Some (TaskForm.handler (Some Scenario.milk)))]
         (TaskForm.handler (Some Scenario.milk)).
Proof.
  assert (Hne : "Buy milk" <> "") by discriminate.
  split; [reflexivity|]. split; [exact Hne|].
  exact (proj1 (edit_and_save (fun s => s) Scenario.milk (PStr "1") "Buy milk"
                  Scenario.w1 eq_refl Hne Hne)).
Defined.

(** Adding the session's task ['Write spec'] through the form. *)
Lemma add_task_witness :
  "Write spec" <> ""
  /\ TaskForm.handleSubmit (fun s => s) None
       (<["title" := VPrim (PStr "Write spec")]> TaskForm.resetForm)
     = TaskForm.Done
         [TaskForm.Emit "submit"
            (Some (<["title" := VPrim (PStr "Write spec")]> TaskForm.resetForm))]
         TaskForm.resetForm.
Proof.
  assert (Hne : "Write spec" <> "") by discriminate.
  split; [exact Hne|].
  exact (proj1 (add_task (fun s => s) "Write spec" Scenario.w1 Hne)).
Defined.
